(** * Cursor query engine of catapult-rest: a shallow embedding

    The document store (MongoDB) is modelled by its collections, held as
    lists of documents in natural order.  The cursor engine
    ([CatapultDb], [NamespaceDb], [MosaicDb]) runs in a small
    reader/writer monad: it reads the store and logs every query it sends
    to it.  JavaScript [undefined] results are [None]. *)

From Stdlib Require Import ZArith List String Ascii Bool Lia DecimalString Sorted.
Import ListNotations.
Open Scope string_scope.
Open Scope list_scope.
Open Scope Z_scope.

(** ** Long (64-bit signed integers of the MongoDB driver) *)

Module Long.

Definition two32 : Z := 2 ^ 32.
Definition two63 : Z := 2 ^ 63.
Definition two64 : Z := 2 ^ 64.

(** Reinterpretation of a 64-bit pattern as a signed value. *)
Definition toSigned64 (z : Z) : Z :=
  let m := z mod two64 in if two63 <=? m then m - two64 else m.

(** [new Long(low, high)]: both halves are taken as 32-bit patterns. *)
Definition make (low high : Z) : Z :=
  toSigned64 (Z.lor (Z.shiftl (Z.land high (two32 - 1)) 32) (Z.land low (two32 - 1))).

(** [Long.prototype.add]: wraps around. *)
Definition add (a b : Z) : Z := toSigned64 (a + b).

End Long.

(** ** Hex strings: [uint64.fromHex] and [new ObjectId(hex)] *)

Definition hex_digit (c : ascii) : option Z :=
  let n := Z.of_nat (nat_of_ascii c) in
  if (48 <=? n) && (n <=? 57) then Some (n - 48)
  else if (65 <=? n) && (n <=? 70) then Some (n - 55)
  else if (97 <=? n) && (n <=? 102) then Some (n - 87)
  else None.

Definition isHexString (s : string) : bool :=
  forallb (fun c => match hex_digit c with Some _ => true | None => false end)
          (list_ascii_of_string s).

(** Big-endian value of a hex string (digits that are not hex count 0). *)
Definition hex_value (s : string) : Z :=
  fold_left (fun acc c => acc * 16 + match hex_digit c with Some d => d | None => 0 end)
            (list_ascii_of_string s) 0.

(** Bytes of a hex string, two digits per byte. *)
Fixpoint hex_bytes_aux (cs : list ascii) : list Z :=
  match cs with
  | c1 :: c2 :: rest =>
      (match hex_digit c1 with Some d => d | None => 0 end) * 16
      + (match hex_digit c2 with Some d => d | None => 0 end) :: hex_bytes_aux rest
  | _ => []
  end.

Definition hex_bytes (s : string) : list Z := hex_bytes_aux (list_ascii_of_string s).

Fixpoint bytes_value (bs : list Z) (acc : Z) : Z :=
  match bs with [] => acc | b :: r => bytes_value r (acc * 256 + b) end.

(** An ObjectId is a 12-byte buffer; documents compare it as the
    big-endian number of its bytes. *)
Record ObjectId := mkObjectId { oid_bytes : list Z }.

Definition ObjectId_of_hex (s : string) : ObjectId := mkObjectId (hex_bytes s).
Definition oid_value (o : ObjectId) : Z := bytes_value (oid_bytes o) 0.

(** [uint64.fromHex]: a pair [low, high] of 32-bit halves. *)
Definition uint64_fromHex (s : string) : Z * Z :=
  let v := hex_value s in (v mod Long.two32, v / Long.two32).

(** ** The storage sentinels of [CatapultDb] *)

Definition minLong : Z := Long.make 0 0.
Definition maxLong : Z := Long.make 4294967295 2147483647.
Definition minObjectId : ObjectId := ObjectId_of_hex "000000000000000000000000".
Definition maxObjectId : ObjectId := ObjectId_of_hex "FFFFFFFFFFFFFFFFFFFFFFFF".

(** ** MongoDB query primitives *)

Module Mongo.

Inductive Dir := Asc | Desc.

(** A sort specification: fields in priority order with their direction.
    A missing field ([None]) sorts below every value. *)
Definition SortSpec (D : Type) := list ((D -> option Z) * Dir).

Definition cmp_opt (a b : option Z) : comparison :=
  match a, b with
  | None, None => Eq
  | None, Some _ => Lt
  | Some _, None => Gt
  | Some x, Some y => Z.compare x y
  end.

Fixpoint cmp_spec {D} (s : SortSpec D) (a b : D) : comparison :=
  match s with
  | [] => Eq
  | (f, dir) :: rest =>
      let c := match dir with Asc => cmp_opt (f a) (f b) | Desc => cmp_opt (f b) (f a) end in
      match c with Eq => cmp_spec rest a b | _ => c end
  end.

Fixpoint insert_sorted {D} (s : SortSpec D) (x : D) (l : list D) : list D :=
  match l with
  | [] => [x]
  | y :: r => match cmp_spec s x y with
              | Gt => y :: insert_sorted s x r
              | _ => x :: y :: r
              end
  end.

(** Stable insertion sort. *)
Definition sort_docs {D} (s : SortSpec D) (l : list D) : list D :=
  fold_right (insert_sorted s) [] l.

(** A find cursor of the node driver: [sort], [limit] and [project] set
    options of the single query sent by [toArray]; a second [sort]
    replaces the first.  [limit(0)] means no limit. *)
Record FindCursor (D : Type) := mkFind {
  fc_filter : D -> bool;
  fc_sort : SortSpec D;
  fc_limit : nat;
  fc_project : D -> D
}.
Arguments mkFind {D}.
Arguments fc_filter {D}.
Arguments fc_sort {D}.
Arguments fc_limit {D}.
Arguments fc_project {D}.

Definition find {D} (cond : D -> bool) : FindCursor D := mkFind cond [] 0%nat (fun d => d).
Definition sort {D} (s : SortSpec D) (c : FindCursor D) : FindCursor D :=
  mkFind (fc_filter c) s (fc_limit c) (fc_project c).
Definition limit {D} (n : nat) (c : FindCursor D) : FindCursor D :=
  mkFind (fc_filter c) (fc_sort c) n (fc_project c).
Definition project {D} (p : D -> D) (c : FindCursor D) : FindCursor D :=
  mkFind (fc_filter c) (fc_sort c) (fc_limit c) p.

Definition toArray {D} (coll : list D) (c : FindCursor D) : list D :=
  let r := sort_docs (fc_sort c) (filter (fc_filter c) coll) in
  map (fc_project c) (if (fc_limit c =? 0)%nat then r else firstn (fc_limit c) r).

(** [findOne]: the first match in natural order. *)
Definition findOne {D} (coll : list D) (cond : D -> bool) : option D :=
  List.find cond coll.

End Mongo.

(** ** Documents *)

(** A transaction document ([transactions], [unconfirmedTransactions],
    [partialTransactions]).  [tx__id] is the internal [_id]; the
    sanitizer moves it to [meta.id] ([tx_meta_id]). *)
Record Transaction := mkTransaction {
  tx__id : option Z;
  tx_meta_id : option Z;
  tx_height : Z;
  tx_index : Z;
  tx_hash : Z;
  tx_aggregateId : option Z;
  tx_addresses : option (list Z);
  tx_type : Z
}.

(** An account document.  The computed fields ([importance],
    [importanceHeight], [harvestedBlocks], [harvestedFees], [balance])
    are absent in the store and added by [$addFields]; projections remove
    fields again.  [acc_meta_publicKeyHeight] is the field
    [meta.publicKeyHeight], which account documents do not carry
    (their public key height is [account.publicKeyHeight]). *)
Record Account := mkAccount {
  acc__id : option Z;
  acc_meta_publicKeyHeight : option Z;
  acc_address : Z;
  acc_publicKeyHeight : Z;
  acc_importances : option (list (Z * Z));  (* (value, height) snapshots *)
  acc_activityBuckets : list Z;             (* totalFeesPaid of each bucket *)
  acc_mosaics : list (Z * Z);               (* (id, amount) *)
  acc_importance : option Z;
  acc_importanceHeight : option Z;
  acc_harvestedBlocks : option Z;
  acc_harvestedFees : option Z;
  acc_balance : option Z
}.

(** A namespace document. [ns_levels] are [namespace.level0 ..]. *)
Record Namespace := mkNamespace {
  ns__id : option Z;
  ns_meta_id : option Z;
  ns_active : bool;
  ns_levels : list Z;
  ns_depth : Z;
  ns_alias_mosaicId : option Z;
  ns_startHeight : Z
}.

(** A mosaic document. *)
Record Mosaic := mkMosaic {
  mo__id : option Z;
  mo_id : Z;
  mo_startHeight : Z
}.

(** The store: every collection by name, and the chain statistic. *)
Record Store := mkStore {
  transactions_of : string -> list Transaction;
  accounts_of : string -> list Account;
  namespaces_of : string -> list Namespace;
  mosaics_of : string -> list Mosaic;
  chainStatistic_height : Z
}.

(** ** The engine monad: read the store, log the queries sent to it *)

Inductive Query :=
| QFindOne (coll : string)
| QFind (coll : string)
| QAggregate (coll : string).

Definition M (A : Type) : Type := Store -> A * list Query.

Definition ret {A} (a : A) : M A := fun _ => (a, []).

Definition bind {A B} (m : M A) (f : A -> M B) : M B :=
  fun st => let (a, q1) := m st in let (b, q2) := f a st in (b, q1 ++ q2).

Definition fmap {A B} (f : A -> B) (m : M A) : M B :=
  fun st => let (a, q) := m st in (f a, q).

Notation "x <- c1 ;; c2" := (bind c1 (fun x => c2))
  (at level 61, c1 at next level, right associativity).

(** ** Cursor retrieval helpers of [CatapultDb]

    A JavaScript result that is a promise of an array is [Some l]; the
    value [undefined] is [None].  The [method] receives the arguments
    produced by [genArgs] followed by the count. *)

Section Helpers.
Context {A R K D : Type}.

(** [arrayFromEmpty]. *)
Definition arrayFromEmpty : M (option (list D)) := ret (Some []).

(** [arrayFromAbsolute]: empty when the count is 0, else call [method]. *)
Definition arrayFromAbsolute (method : A -> nat -> M (list D)) (genArgs : A)
    (count : nat) : M (option (list D)) :=
  if (count =? 0)%nat then arrayFromEmpty
  else fmap Some (method genArgs count).

(** [arrayFromRecord]: [undefined] for a missing record, empty when the
    count is 0, else call [method] on the arguments read from the record. *)
Definition arrayFromRecord (method : A -> nat -> M (list D)) (genArgs : R -> A)
    (record : option R) (count : nat) : M (option (list D)) :=
  match record with
  | None => ret None
  | Some r => if (count =? 0)%nat then arrayFromEmpty
              else fmap Some (method (genArgs r) count)
  end.

(** [arrayFromId]: look the record up, then hand it to [arrayMethod]. *)
Definition arrayFromId (idMethod : K -> M (option R))
    (arrayMethod : option R -> nat -> M (option (list D))) (id : K) (count : nat)
    : M (option (list D)) :=
  record <- idMethod id ;; arrayMethod record count.

End Helpers.

(** ** Transactions (cursor engine of [CatapultDb]) *)

Module Tx.

Definition exists_field {T} (o : option T) : bool :=
  match o with Some _ => true | None => false end.

(** [sanitizer.copyAndDeleteId(s)]. *)
Definition copyAndDeleteId (t : Transaction) : Transaction :=
  mkTransaction None (tx__id t) (tx_height t) (tx_index t) (tx_hash t)
    (tx_aggregateId t) (tx_addresses t) (tx_type t).

(** projection [{ 'meta.addresses': 0 }]. *)
Definition hideAddresses (t : Transaction) : Transaction :=
  mkTransaction (tx__id t) (tx_meta_id t) (tx_height t) (tx_index t) (tx_hash t)
    (tx_aggregateId t) None (tx_type t).

Definition sorting : Mongo.SortSpec Transaction :=
  [(fun t => Some (tx_height t), Mongo.Desc); (fun t => Some (tx_index t), Mongo.Desc)].

(** [sortedTransactions]. *)
Definition sortedTransactions (collectionName : string) (condition : Transaction -> bool)
    (count : nat) : M (list Transaction) :=
  fun st =>
    (map copyAndDeleteId
       (Mongo.toArray (transactions_of st collectionName)
          (Mongo.limit count (Mongo.project hideAddresses
             (Mongo.sort sorting (Mongo.find condition))))),
     [QFind collectionName]).

Definition isAggregate (collectionName : string) : bool :=
  String.eqb collectionName "partialTransactions".

(** The range condition of [transactionsFrom]. *)
Definition fromCondition (collectionName : string) (height index : Z) (t : Transaction) : bool :=
  Bool.eqb (exists_field (tx_aggregateId t)) (isAggregate collectionName)
  && (((tx_height t =? height) && (tx_index t <? index)) || (tx_height t <? height)).

(** The range condition of [transactionsSince]. *)
Definition sinceCondition (collectionName : string) (height index : Z) (t : Transaction) : bool :=
  Bool.eqb (exists_field (tx_aggregateId t)) (isAggregate collectionName)
  && (((tx_height t =? height) && (index <? tx_index t)) || (height <? tx_height t)).

Definition transactionsFrom (collectionName : string) (height index : Z) (count : nat) :=
  sortedTransactions collectionName (fromCondition collectionName height index) count.

Definition transactionsSince (collectionName : string) (height index : Z) (count : nat) :=
  sortedTransactions collectionName (sinceCondition collectionName height index) count.

Definition uncurry_from (collectionName : string) (a : Z * Z) (count : nat) :=
  transactionsFrom collectionName (fst a) (snd a) count.
Definition uncurry_since (collectionName : string) (a : Z * Z) (count : nat) :=
  transactionsSince collectionName (fst a) (snd a) count.

Definition transactionsFromEarliest (collectionName : string) (count : nat)
    : M (option (list Transaction)) := arrayFromEmpty.

Definition transactionsSinceEarliest (collectionName : string) (count : nat) :=
  arrayFromAbsolute (uncurry_since collectionName) (minLong, -1) count.

Definition transactionsFromLatest (collectionName : string) (count : nat) :=
  arrayFromAbsolute (uncurry_from collectionName) (maxLong, 0) count.

Definition transactionsSinceLatest (collectionName : string) (count : nat)
    : M (option (list Transaction)) := arrayFromEmpty.

Definition genArgs (t : Transaction) : Z * Z := (tx_height t, tx_index t).

Definition transactionsFromTransaction (collectionName : string) :=
  arrayFromRecord (uncurry_from collectionName) genArgs.

Definition transactionsSinceTransaction (collectionName : string) :=
  arrayFromRecord (uncurry_since collectionName) genArgs.

(** [rawTransactionByHash]. *)
Definition rawTransactionByHash (collectionName : string) (hash : Z) : M (option Transaction) :=
  fun st => (Mongo.findOne (transactions_of st collectionName) (fun t => tx_hash t =? hash),
             [QFindOne collectionName]).

(** [rawTransactionById]: the sanitizer runs on the found document. *)
Definition rawTransactionById (collectionName : string) (id : Z) : M (option Transaction) :=
  fun st => (option_map copyAndDeleteId
               (Mongo.findOne (transactions_of st collectionName)
                  (fun t => match tx__id t with Some i => i =? id | None => false end)),
             [QFindOne collectionName]).

Definition transactionsFromHash (collectionName : string) :=
  arrayFromId (rawTransactionByHash collectionName) (transactionsFromTransaction collectionName).
Definition transactionsSinceHash (collectionName : string) :=
  arrayFromId (rawTransactionByHash collectionName) (transactionsSinceTransaction collectionName).
Definition transactionsFromId (collectionName : string) :=
  arrayFromId (rawTransactionById collectionName) (transactionsFromTransaction collectionName).
Definition transactionsSinceId (collectionName : string) :=
  arrayFromId (rawTransactionById collectionName) (transactionsSinceTransaction collectionName).

End Tx.

(** ** The earlier transaction cursor of [rest/src/db/CatapultDb.js]

    Its [sortedTransactions] is the same code as above. *)

Module LegacyTx.

(** [chainStatisticCurrent().height]. *)
Definition chainStatisticHeight : M Z :=
  fun st => (chainStatistic_height st, [QFindOne "chainStatistic"]).

Definition condition (height index : Z) (t : Transaction) : bool :=
  negb (Tx.exists_field (tx_aggregateId t))
  && (((tx_height t =? height) && (tx_index t <? index)) || (tx_height t <? height)).

Definition transactionsFromHeightAndIndex (collectionName : string) (height index : Z)
    (numTransactions : nat) : M (list Transaction) :=
  if (numTransactions =? 0)%nat then ret []
  else Tx.sortedTransactions collectionName (condition height index) numTransactions.

Definition transactionsFromLatest (collectionName : string) (numTransactions : nat)
    : M (list Transaction) :=
  if (numTransactions =? 0)%nat then ret []
  else h <- chainStatisticHeight ;;
       transactionsFromHeightAndIndex collectionName (Long.add h 1) 0 numTransactions.

End LegacyTx.

(** ** Accounts (cursor engine of [CatapultDb] and [NamespaceDb]) *)

Module Acc.

(** The ordering operator of [accountMatchCondition]: ['$lt'] or ['$gt']. *)
Inductive Ordering := OLt | OGt.

(** [{ f: { [ordering]: v } }]: a missing field or a null value never
    compares. *)
Definition cmp (o : Ordering) (x v : option Z) : bool :=
  match x, v with
  | Some x, Some v => match o with OLt => x <? v | OGt => v <? x end
  | _, _ => false
  end.

(** [{ f: { $eq: v } }]: a missing field equals only null. *)
Definition eqf (x v : option Z) : bool :=
  match x, v with
  | Some x, Some v => x =? v
  | None, None => true
  | _, _ => false
  end.

Fixpoint last_snapshot (l : list (Z * Z)) : option (Z * Z) :=
  match l with [] => None | [x] => Some x | _ :: r => last_snapshot r end.

(** [addFieldImportanceImpl(field)]: the [field] of the last snapshot,
    or a long 0 for an empty [account.importances]. *)
Definition addFieldImportanceImpl (field : string) (a : Account) : option Z :=
  match acc_importances a with
  | Some l =>
      match last_snapshot l with
      | Some (v, h) => Some (if String.eqb field "value" then v else h)
      | None => Some 0
      end
  | None => Some 0
  end.

Definition addFieldImportance := addFieldImportanceImpl "value".
Definition addFieldImportanceHeight := addFieldImportanceImpl "height".

(** [{ $size: "$account.activityBuckets" }]. *)
Definition addFieldHarvestedBlocks (a : Account) : option Z :=
  Some (Z.of_nat (List.length (acc_activityBuckets a))).

(** Sum of [totalFeesPaid] over [account.activityBuckets]. *)
Definition addFieldHarvestedFees (a : Account) : option Z :=
  Some (fold_left Z.add (acc_activityBuckets a) 0).

(** Rebuild an account with new computed fields. *)
Definition with_computed (a : Account) (imp impH hb hf bal : option Z) : Account :=
  mkAccount (acc__id a) (acc_meta_publicKeyHeight a) (acc_address a) (acc_publicKeyHeight a)
    (acc_importances a) (acc_activityBuckets a) (acc_mosaics a) imp impH hb hf bal.

(** The [$addFields] stages. *)
Definition addImportanceFields (a : Account) : Account :=
  with_computed a (addFieldImportance a) (addFieldImportanceHeight a)
    (acc_harvestedBlocks a) (acc_harvestedFees a) (acc_balance a).
Definition addHarvestedBlocksFields (a : Account) : Account :=
  with_computed a (addFieldImportance a) (addFieldImportanceHeight a)
    (addFieldHarvestedBlocks a) (acc_harvestedFees a) (acc_balance a).
Definition addHarvestedFeesFields (a : Account) : Account :=
  with_computed a (addFieldImportance a) (addFieldImportanceHeight a)
    (addFieldHarvestedBlocks a) (addFieldHarvestedFees a) (acc_balance a).

(** A projection that removes [account.importances] and, as flagged,
    [account.harvestedBlocks], [account.harvestedFees], [account.balance]. *)
Definition projectAccount (dropHB dropHF dropBal : bool) (a : Account) : Account :=
  mkAccount (acc__id a) (acc_meta_publicKeyHeight a) (acc_address a) (acc_publicKeyHeight a)
    None (acc_activityBuckets a) (acc_mosaics a) (acc_importance a) (acc_importanceHeight a)
    (if dropHB then None else acc_harvestedBlocks a)
    (if dropHF then None else acc_harvestedFees a)
    (if dropBal then None else acc_balance a).

(** [sanitizer.deleteId(s)]. *)
Definition deleteId (a : Account) : Account :=
  mkAccount None (acc_meta_publicKeyHeight a) (acc_address a) (acc_publicKeyHeight a)
    (acc_importances a) (acc_activityBuckets a) (acc_mosaics a) (acc_importance a)
    (acc_importanceHeight a) (acc_harvestedBlocks a) (acc_harvestedFees a) (acc_balance a).

(** [account.<field>] as read by a [$match]. *)
Definition account_field (field : string) (a : Account) : option Z :=
  if String.eqb field "importance" then acc_importance a
  else if String.eqb field "harvestedBlocks" then acc_harvestedBlocks a
  else if String.eqb field "harvestedFees" then acc_harvestedFees a
  else if String.eqb field "balance" then acc_balance a
  else if String.eqb field "publicKeyHeight" then Some (acc_publicKeyHeight a)
  else None.

(** [accountMatchCondition(field, ordering, value, height, id)]. *)
Definition accountMatchCondition (field : string) (ordering : Ordering)
    (value height id : option Z) (a : Account) : bool :=
  cmp ordering (account_field field a) value
  || (eqf (account_field field a) value
      && ((eqf (acc_meta_publicKeyHeight a) height && cmp ordering (acc__id a) id)
          || cmp ordering (acc_meta_publicKeyHeight a) height)).

Definition key_publicKeyHeight (a : Account) : option Z := Some (acc_publicKeyHeight a).

(** The aggregation [addFields, match] followed by [.sort(sorting)],
    [.project(projection)], [.limit(count)], then [deleteIds]: the
    driver appends the last three as pipeline stages in that order. *)
Definition sortedAccounts (collectionName : string) (addFields : Account -> Account)
    (sorting : Mongo.SortSpec Account) (projection : Account -> Account)
    (match_ : Account -> bool) (count : nat) : M (list Account) :=
  fun st =>
    (map deleteId
       (firstn count
          (map projection
             (Mongo.sort_docs sorting
                (filter match_ (map addFields (accounts_of st collectionName)))))),
     [QAggregate collectionName]).

(** [rawAccountByAddress]: [$match] on the address, [addFields], the
    projection, [limit(1)], first element. *)
Definition rawAccountByAddress (collectionName : string) (address : Z)
    (addFields : Account -> Account) (projection : Account -> Account)
    : M (option Account) :=
  fun st =>
    (hd_error (firstn 1 (map projection (map addFields
       (filter (fun a => acc_address a =? address) (accounts_of st collectionName))))),
     [QAggregate collectionName]).

(** The anchor tuple type: JavaScript values that may be [undefined]. *)
Definition Args : Type := option Z * option Z * option Z.

Definition minArgs : Args := (Some minLong, Some minLong, Some (oid_value minObjectId)).
Definition maxArgs : Args := (Some maxLong, Some maxLong, Some (oid_value maxObjectId)).

(** By importance. *)

Definition importanceSorting : Mongo.SortSpec Account :=
  [(acc_importance, Mongo.Desc); (key_publicKeyHeight, Mongo.Desc); (acc__id, Mongo.Desc)].

Definition sortedAccountsByImportance (collectionName : string) :=
  sortedAccounts collectionName addImportanceFields importanceSorting
    (projectAccount false false false).

Definition accountsByImportanceFrom (collectionName : string) (a : Args) (numAccounts : nat) :=
  let '(importance, height, id) := a in
  sortedAccountsByImportance collectionName
    (accountMatchCondition "importance" OLt importance height id) numAccounts.

Definition accountsByImportanceSince (collectionName : string) (a : Args) (numAccounts : nat) :=
  let '(importance, height, id) := a in
  sortedAccountsByImportance collectionName
    (accountMatchCondition "importance" OGt importance height id) numAccounts.

Definition accountsByImportanceFromLeast (collectionName : string) (count : nat)
  : M (option (list Account)) := arrayFromEmpty.
Definition accountsByImportanceSinceLeast (collectionName : string) :=
  arrayFromAbsolute (accountsByImportanceSince collectionName) minArgs.
Definition accountsByImportanceFromMost (collectionName : string) :=
  arrayFromAbsolute (accountsByImportanceFrom collectionName) maxArgs.
Definition accountsByImportanceSinceMost (collectionName : string) (count : nat)
  : M (option (list Account)) := arrayFromEmpty.

(** [genArgs] of the [*FromAccount] / [*SinceAccount] methods of the
    importance and harvested cursors: [account.account.importance],
    [account.account.publicKeyHeight], [account._id]. *)
Definition importanceGenArgs (a : Account) : Args :=
  (acc_importance a, Some (acc_publicKeyHeight a), acc__id a).

Definition accountsByImportanceFromAccount (collectionName : string) :=
  arrayFromRecord (accountsByImportanceFrom collectionName) importanceGenArgs.
(** As in the source, the [Since] variant calls [accountsByImportanceFrom]. *)
Definition accountsByImportanceSinceAccount (collectionName : string) :=
  arrayFromRecord (accountsByImportanceFrom collectionName) importanceGenArgs.

Definition rawAccountWithImportanceByAddress (collectionName : string) (address : Z) :=
  rawAccountByAddress collectionName address addImportanceFields
    (projectAccount false false false).

Definition accountsByImportanceFromAddress (collectionName : string) :=
  arrayFromId (rawAccountWithImportanceByAddress collectionName)
    (accountsByImportanceFromAccount collectionName).
Definition accountsByImportanceSinceAddress (collectionName : string) :=
  arrayFromId (rawAccountWithImportanceByAddress collectionName)
    (accountsByImportanceSinceAccount collectionName).

(** By harvested blocks. *)

Definition harvestedBlocksSorting : Mongo.SortSpec Account :=
  [(acc_harvestedBlocks, Mongo.Desc); (key_publicKeyHeight, Mongo.Desc); (acc__id, Mongo.Desc)].

Definition sortedAccountsByHarvestedBlocks (collectionName : string) :=
  sortedAccounts collectionName addHarvestedBlocksFields harvestedBlocksSorting
    (projectAccount true false false).

Definition accountsByHarvestedBlocksFrom (collectionName : string) (a : Args) (numAccounts : nat) :=
  let '(harvestedBlocks, height, id) := a in
  sortedAccountsByHarvestedBlocks collectionName
    (accountMatchCondition "harvestedBlocks" OLt harvestedBlocks height id) numAccounts.

Definition accountsByHarvestedBlocksSince (collectionName : string) (a : Args) (numAccounts : nat) :=
  let '(harvestedBlocks, height, id) := a in
  sortedAccountsByHarvestedBlocks collectionName
    (accountMatchCondition "harvestedBlocks" OGt harvestedBlocks height id) numAccounts.

Definition accountsByHarvestedBlocksFromAccount (collectionName : string) :=
  arrayFromRecord (accountsByHarvestedBlocksFrom collectionName) importanceGenArgs.
Definition accountsByHarvestedBlocksSinceAccount (collectionName : string) :=
  arrayFromRecord (accountsByHarvestedBlocksFrom collectionName) importanceGenArgs.

(** The projection removes [account.harvestedBlocks] again. *)
Definition rawAccountWithHarvestedBlocksByAddress (collectionName : string) (address : Z) :=
  rawAccountByAddress collectionName address addHarvestedBlocksFields
    (projectAccount true false false).

Definition accountsByHarvestedBlocksFromAddress (collectionName : string) :=
  arrayFromId (rawAccountWithHarvestedBlocksByAddress collectionName)
    (accountsByHarvestedBlocksFromAccount collectionName).
Definition accountsByHarvestedBlocksSinceAddress (collectionName : string) :=
  arrayFromId (rawAccountWithHarvestedBlocksByAddress collectionName)
    (accountsByHarvestedBlocksSinceAccount collectionName).

(** By harvested fees. *)

Definition harvestedFeesSorting : Mongo.SortSpec Account :=
  [(acc_harvestedFees, Mongo.Desc); (acc_harvestedBlocks, Mongo.Desc);
   (key_publicKeyHeight, Mongo.Desc); (acc__id, Mongo.Desc)].

Definition sortedAccountsByHarvestedFees (collectionName : string) :=
  sortedAccounts collectionName addHarvestedFeesFields harvestedFeesSorting
    (projectAccount true true false).

Definition accountsByHarvestedFeesFrom (collectionName : string) (a : Args) (numAccounts : nat) :=
  let '(harvestedFees, height, id) := a in
  sortedAccountsByHarvestedFees collectionName
    (accountMatchCondition "harvestedFees" OLt harvestedFees height id) numAccounts.

Definition accountsByHarvestedFeesSince (collectionName : string) (a : Args) (numAccounts : nat) :=
  let '(harvestedFees, height, id) := a in
  sortedAccountsByHarvestedFees collectionName
    (accountMatchCondition "harvestedFees" OGt harvestedFees height id) numAccounts.

Definition accountsByHarvestedFeesFromAccount (collectionName : string) :=
  arrayFromRecord (accountsByHarvestedFeesFrom collectionName) importanceGenArgs.
Definition accountsByHarvestedFeesSinceAccount (collectionName : string) :=
  arrayFromRecord (accountsByHarvestedFeesFrom collectionName) importanceGenArgs.

Definition rawAccountWithHarvestedFeesByAddress (collectionName : string) (address : Z) :=
  rawAccountByAddress collectionName address addHarvestedFeesFields
    (projectAccount true true false).

Definition accountsByHarvestedFeesFromAddress (collectionName : string) :=
  arrayFromId (rawAccountWithHarvestedFeesByAddress collectionName)
    (accountsByHarvestedFeesFromAccount collectionName).
Definition accountsByHarvestedFeesSinceAddress (collectionName : string) :=
  arrayFromId (rawAccountWithHarvestedFeesByAddress collectionName)
    (accountsByHarvestedFeesSinceAccount collectionName).

End Acc.

(** ** Well-known mosaics and balance cursors of [NamespaceDb] *)

Module Ns.

(** [rawNamespaceById]: an active namespace whose [level<k>] is the id
    and whose depth is [k + 1], for [k] in [0, 1, 2]. *)
Definition rawNamespaceById (collectionName : string) (id : Z * Z) : M (option Namespace) :=
  let namespaceId := Long.make (fst id) (snd id) in
  let cond (n : Namespace) :=
    existsb (fun level =>
               ns_active n
               && match nth_error (ns_levels n) level with
                  | Some l => l =? namespaceId | None => false end
               && (ns_depth n =? Z.of_nat level + 1))
            [0; 1; 2]%nat in
  fun st => (Mongo.findOne (namespaces_of st collectionName) cond, [QFindOne collectionName]).

(** [namespace.namespace.alias.mosaicId] of the looked-up namespace.  A
    missing namespace makes the promise reject; the claims about balances
    concern stores that hold both well-known namespaces, and that case is
    rendered as [None] here. *)
Definition aliasMosaic (n : option Namespace) : option Z :=
  match n with Some n => ns_alias_mosaicId n | None => None end.

Definition currencyNamespaceHex : string := "85bbea6cc462b244".
Definition harvestNamespaceHex : string := "941299b2b7e1291c".

(** [networkCurrencyMosaic]. *)
Definition networkCurrencyMosaic : M (option Z) :=
  n <- rawNamespaceById "namespaces" (uint64_fromHex currencyNamespaceHex) ;;
  ret (aliasMosaic n).

(** [networkHarvestMosaic]. *)
Definition networkHarvestMosaic : M (option Z) :=
  n <- rawNamespaceById "namespaces" (uint64_fromHex harvestNamespaceHex) ;;
  ret (aliasMosaic n).

(** [addFieldMosaicBalance(mosaicId)]: sum of the amounts of the entries
    of [account.mosaics] whose id is [mosaicId]. *)
Definition addFieldMosaicBalance (mosaicId : option Z) (a : Account) : option Z :=
  Some (fold_left (fun acc m => acc + if Acc.eqf (Some (fst m)) mosaicId then snd m else 0)
                  (acc_mosaics a) 0).

Definition addBalanceFields (mosaicId : option Z) (a : Account) : Account :=
  Acc.with_computed a (Acc.addFieldImportance a) (Acc.addFieldImportanceHeight a)
    (acc_harvestedBlocks a) (acc_harvestedFees a) (addFieldMosaicBalance mosaicId a).

Definition balanceSorting : Mongo.SortSpec Account :=
  [(acc_balance, Mongo.Desc); (Acc.key_publicKeyHeight, Mongo.Desc); (acc__id, Mongo.Desc)].

(** [sortedAccountsByMosaicBalance]. *)
Definition sortedAccountsByMosaicBalance (collectionName : string) (mosaicId : option Z) :=
  Acc.sortedAccounts collectionName (addBalanceFields mosaicId) balanceSorting
    (Acc.projectAccount false false true).

(** [rawAccountWithCurrencyBalanceByAddress]: as in the source, the
    mosaic id is read with [networkHarvestMosaic]. *)
Definition rawAccountWithCurrencyBalanceByAddress (collectionName : string) (address : Z)
    : M (option Account) :=
  mosaicId <- networkHarvestMosaic ;;
  Acc.rawAccountByAddress collectionName address (addBalanceFields mosaicId)
    (Acc.projectAccount false false false).

(** [sortedAccountsByCurrencyBalance]. *)
Definition sortedAccountsByCurrencyBalance (collectionName : string)
    (match_ : Account -> bool) (count : nat) : M (list Account) :=
  mosaicId <- networkCurrencyMosaic ;;
  sortedAccountsByMosaicBalance collectionName mosaicId match_ count.

Definition accountsByCurrencyBalanceFrom (collectionName : string) (a : Acc.Args) (numAccounts : nat) :=
  let '(balance, height, id) := a in
  sortedAccountsByCurrencyBalance collectionName
    (Acc.accountMatchCondition "balance" Acc.OLt balance height id) numAccounts.

Definition accountsByCurrencyBalanceSince (collectionName : string) (a : Acc.Args) (numAccounts : nat) :=
  let '(balance, height, id) := a in
  sortedAccountsByCurrencyBalance collectionName
    (Acc.accountMatchCondition "balance" Acc.OGt balance height id) numAccounts.

Definition balanceGenArgs (a : Account) : Acc.Args :=
  (acc_balance a, Some (acc_publicKeyHeight a), acc__id a).

Definition accountsByCurrencyBalanceFromAccount (collectionName : string) :=
  arrayFromRecord (accountsByCurrencyBalanceFrom collectionName) balanceGenArgs.
(** As in the source, the [Since] variant calls the [From] method. *)
Definition accountsByCurrencyBalanceSinceAccount (collectionName : string) :=
  arrayFromRecord (accountsByCurrencyBalanceFrom collectionName) balanceGenArgs.

Definition accountsByCurrencyBalanceFromAddress (collectionName : string) :=
  arrayFromId (rawAccountWithCurrencyBalanceByAddress collectionName)
    (accountsByCurrencyBalanceFromAccount collectionName).
Definition accountsByCurrencyBalanceSinceAddress (collectionName : string) :=
  arrayFromId (rawAccountWithCurrencyBalanceByAddress collectionName)
    (accountsByCurrencyBalanceSinceAccount collectionName).

End Ns.

(** ** Mosaics ([MosaicDb], the version built on the retrieval helpers) *)

Module Mos.

Definition deleteId (m : Mosaic) : Mosaic := mkMosaic None (mo_id m) (mo_startHeight m).

Definition key_startHeight (m : Mosaic) : option Z := Some (mo_startHeight m).

(** [sortedMosaics(collectionName, condition, sortAscending, count)]:
    [find(condition).sort(initialSort).limit(count).sort(finalSort)]. *)
Definition sortedMosaics (collectionName : string) (condition : Mosaic -> bool)
    (sortAscending : bool) (count : nat) : M (list Mosaic) :=
  let order := if sortAscending then Mongo.Asc else Mongo.Desc in
  let initialSort : Mongo.SortSpec Mosaic := [(key_startHeight, order); (mo__id, order)] in
  let finalSort : Mongo.SortSpec Mosaic :=
    [(key_startHeight, Mongo.Desc); (mo__id, Mongo.Desc)] in
  fun st =>
    (map deleteId
       (Mongo.toArray (mosaics_of st collectionName)
          (Mongo.sort finalSort (Mongo.limit count
             (Mongo.sort initialSort (Mongo.find condition))))),
     [QFind collectionName]).

Definition mosaicsFrom (collectionName : string) (a : Z * Z) (count : nat) :=
  let '(height, id) := a in
  sortedMosaics collectionName
    (fun m => ((mo_startHeight m =? height) && Acc.cmp Acc.OLt (mo__id m) (Some id))
              || (mo_startHeight m <? height)) false count.

Definition mosaicsSince (collectionName : string) (a : Z * Z) (count : nat) :=
  let '(height, id) := a in
  sortedMosaics collectionName
    (fun m => ((mo_startHeight m =? height) && Acc.cmp Acc.OGt (mo__id m) (Some id))
              || (height <? mo_startHeight m)) true count.

Definition mosaicsSinceEarliest (collectionName : string) :=
  arrayFromAbsolute (mosaicsSince collectionName) (minLong, oid_value minObjectId).

Definition mosaicsFromLatest (collectionName : string) :=
  arrayFromAbsolute (mosaicsFrom collectionName) (maxLong, oid_value maxObjectId).

End Mos.

(** ** Route adaptor *)

Module Routes.

(** [namedValidatorMap]. *)
Definition validate_earliest (s : string) : bool := String.eqb s "earliest" || String.eqb s "min".
Definition validate_latest (s : string) : bool := String.eqb s "latest" || String.eqb s "max".
Definition validate_objectId (s : string) : bool := (String.length s =? 24)%nat && isHexString s.
Definition validate_hash256 (s : string) : bool := (String.length s =? 64)%nat.

(** The database method selected by [getTransactions]. *)
Inductive TxMethod :=
| TxEarliest
| TxLatest
| TxId (id : Z)
| TxHash (hash : Z).

(** The dispatch of [getTransactions]; [None] is the thrown
    "invalid transaction identifier" error. *)
Definition getTransactionsMethod (transaction : string) : option TxMethod :=
  if validate_earliest transaction then Some TxEarliest
  else if validate_latest transaction then Some TxLatest
  else if validate_objectId transaction then Some (TxId (hex_value transaction))
  else if validate_hash256 transaction then Some (TxHash (hex_value transaction))
  else None.

Inductive Duration := From | Since.

(** [db['transactions' + duration + ...](...dbArgs)]. *)
Definition runTxMethod (duration : Duration) (collectionName : string) (m : TxMethod)
    (limit : nat) : M (option (list Transaction)) :=
  match duration, m with
  | From, TxEarliest => Tx.transactionsFromEarliest collectionName limit
  | Since, TxEarliest => Tx.transactionsSinceEarliest collectionName limit
  | From, TxLatest => Tx.transactionsFromLatest collectionName limit
  | Since, TxLatest => Tx.transactionsSinceLatest collectionName limit
  | From, TxId id => Tx.transactionsFromId collectionName id limit
  | Since, TxId id => Tx.transactionsSinceId collectionName id limit
  | From, TxHash h => Tx.transactionsFromHash collectionName h limit
  | Since, TxHash h => Tx.transactionsSinceHash collectionName h limit
  end.

(** What the client receives. *)
Inductive Outcome (D : Type) :=
| Sent (payload : list D)
| NotFound
| InvalidArgument
| Rejected (reason : string).
Arguments Sent {D}.
Arguments NotFound {D}.
Arguments InvalidArgument {D}.
Arguments Rejected {D}.

(** [queryAndSendDurationCollection]: [data.map(transformer)] then
    [res.send]; on [undefined] the [map] call throws inside the [then]
    callback, the promise rejects and nothing is sent. *)
Definition queryAndSendDurationCollection {D E} (transformer : D -> E)
    (data : option (list D)) : Outcome E :=
  match data with
  | Some l => Sent (map transformer l)
  | None => Rejected "TypeError: Cannot read property 'map' of undefined"
  end.

(** [getTransactions] for an already valid [limit]. *)
Definition getTransactions (duration : Duration) (collectionName : string)
    (transaction : string) (limit : nat) (st : Store) : Outcome Transaction :=
  match getTransactionsMethod transaction with
  | None => Rejected "invalid transaction identifier"
  | Some m =>
      queryAndSendDurationCollection (fun t => t)
        (fst (runTxMethod duration collectionName m limit st))
  end.

End Routes.

(** ** Concrete stores *)

Module Fixtures.

Definition account (id address publicKeyHeight : Z) (importances : list (Z * Z))
    (activityBuckets : list Z) (mosaics : list (Z * Z)) : Account :=
  mkAccount (Some id) None address publicKeyHeight (Some importances) activityBuckets mosaics
    None None None None None.

Definition store (accounts : list Account) (namespaces : list Namespace)
    (mosaics : list Mosaic) (txs : string -> list Transaction) (height : Z) : Store :=
  mkStore txs (fun _ => accounts) (fun _ => namespaces) (fun _ => mosaics) height.

Definition noTransactions : string -> list Transaction := fun _ => [].

(** Account 1 (address 11) has importance 1, account 2 (address 22)
    importance 2. *)
Definition accountsByRank : Store :=
  store [account 1 11 1 [(1, 1)] [] []; account 2 22 1 [(2, 1)] [] []] [] [] noTransactions 10.

(** Two accounts of equal importance 5, public key heights 1 and 2. *)
Definition accountsTied : Store :=
  store [account 1 11 1 [(5, 1)] [] []; account 2 22 2 [(5, 1)] [] []] [] [] noTransactions 10.

(** Account 1 has three activity buckets (fees 10, 20, 30), account 2
    one (fee 5); neither has an importance snapshot. *)
Definition accountsHarvesting : Store :=
  store [account 1 11 1 [] [10; 20; 30] []; account 2 22 1 [] [5] []] [] [] noTransactions 10.

Definition longOfHex (s : string) : Z := Long.make (fst (uint64_fromHex s)) (snd (uint64_fromHex s)).

(** The currency namespace aliases mosaic 100, the harvest namespace
    mosaic 200; account 1 holds 50 of mosaic 100 and 7 of mosaic 200. *)
Definition accountsWithBalances : Store :=
  store [account 1 11 1 [] [] [(100, 50); (200, 7)]]
    [mkNamespace (Some 1) None true [longOfHex Ns.currencyNamespaceHex] 1 (Some 100) 1;
     mkNamespace (Some 2) None true [longOfHex Ns.harvestNamespaceHex] 1 (Some 200) 1]
    [] noTransactions 10.

(** Three mosaics with start heights 1, 2, 3. *)
Definition threeMosaics : Store :=
  store [] [] [mkMosaic (Some 1) 7 1; mkMosaic (Some 2) 8 2; mkMosaic (Some 3) 9 3]
    noTransactions 10.

Definition tx (height index : Z) (aggregateId : option Z) : Transaction :=
  mkTransaction (Some (height * 10 + index)) None height index (height * 100 + index)
    aggregateId None 0.

(** Confirmed transactions at heights 1 and 2; one dependent document in
    [partialTransactions]; chain height 10. *)
Definition someTransactions : Store :=
  store [] [] []
    (fun c => if String.eqb c "partialTransactions" then [tx 1 0 (Some 5)]
              else if String.eqb c "transactions" then [tx 1 0 None; tx 2 1 None]
              else [])
    10.

(** A 64-hex hash that no document carries. *)
Definition unknownHash : string :=
  "F91E000000000000000000000000000000000000000000000000000000038103".

(** A 24-hex object id. *)
Definition someObjectIdHex : string := "0123456789abcdef01234567".

End Fixtures.

(** ** Helper lemmas *)

(** ** Route utilities of [routeUtils.js] *)

(** [generateValidPageSizes(config)]: the multiples of [step] from the
    first one at or above [min] up to [max].  JavaScript's [%] is the
    truncated remainder [Z.rem].  With [step = 0] the remainder is [NaN],
    the loop never runs and the function throws; with [step < 0] the
    loop never ends once it starts. *)
Module PageSizes.

Record PageSizeConfig := mkPageSizeConfig { ps_min : Z; ps_max : Z; ps_step : Z }.

Inductive Outcome :=
| Ok (pageSizes : list Z)
| Throws (msg : string)
| Diverges.

Definition noPageSizes : string :=
  "page size configuration does not specify any valid page sizes".

(** The [for] loop; [fuel] is its number of iterations when [step > 0]. *)
Fixpoint loop (fuel : nat) (step max pageSize : Z) : list Z :=
  match fuel with
  | O => []
  | S f => if pageSize <=? max then pageSize :: loop f step max (pageSize + step) else []
  end.

Definition start (c : PageSizeConfig) : Z :=
  ps_min c + (if Z.rem (ps_min c) (ps_step c) =? 0 then 0
              else ps_step c - Z.rem (ps_min c) (ps_step c)).

Definition generateValidPageSizes (c : PageSizeConfig) : Outcome :=
  if ps_step c =? 0 then Throws noPageSizes
  else if ps_step c <? 0 then
    (if start c <=? ps_max c then Diverges else Throws noPageSizes)
  else
    match loop (S (Z.to_nat ((ps_max c - start c) / ps_step c))) (ps_step c) (ps_max c) (start c) with
    | [] => Throws noPageSizes
    | pageSizes => Ok pageSizes
    end.

End PageSizes.

(** Parsers and validators.  Route parameters are ASCII strings, so
    JavaScript's [str.length] is [String.length].  [convert.hexToUint8],
    [convert.tryParseUint] and [address.stringToAddress] come from
    catapult-sdk, which is not part of this repository: the section takes
    them as parameters, so what is proved holds for any of them. *)
Module Parse.

Inductive Exn :=
| Error (msg : string)
| TypeError (msg : string)
| InvalidArgumentError (msg : string)
| InvalidArgumentErrorWith (msg : string) (cause : Exn).

Inductive Result (A : Type) :=
| Ok (a : A)
| Throw (e : Exn).
Arguments Ok {A} a.
Arguments Throw {A} e.

Definition rmap {A B} (f : A -> B) (r : Result A) : Result B :=
  match r with Ok a => Ok (f a) | Throw e => Throw e end.

Inductive Value :=
| VString (s : string)
| VNumber (n : Z)
| VUint64 (v : Z * Z)
| VBytes (b : list Z)
| VAccountId (kind : string) (b : list Z).

Definition nat_to_string (n : nat) : string := NilZero.string_of_uint (Nat.to_uint n).

Definition MAX_SAFE_INTEGER : Z := 2 ^ 53 - 1.

(** [constants.sizes]. *)
Definition hexPublicKey : nat := 64.
Definition addressEncoded : nat := 40.
Definition hexHash256 : nat := 64.
Definition hexHash512 : nat := 128.
Definition hexObjectId : nat := 24.
Definition hexNamespaceId : nat := 16.
Definition hexMosaicId : nat := 16.

(** [namedValidatorMap]: a missing name is [undefined]. *)
Definition namedValidatorMap (name : string) : option (string -> bool) :=
  if String.eqb name "objectId" then Some (fun s => (hexObjectId =? String.length s)%nat && isHexString s)
  else if String.eqb name "namespaceId" then Some (fun s => (hexNamespaceId =? String.length s)%nat && isHexString s)
  else if String.eqb name "mosaicId" then Some (fun s => (hexMosaicId =? String.length s)%nat && isHexString s)
  else if String.eqb name "address" then Some (fun s => (addressEncoded =? String.length s)%nat)
  else if String.eqb name "publicKey" then Some (fun s => (hexPublicKey =? String.length s)%nat)
  else if String.eqb name "hash256" then Some (fun s => (hexHash256 =? String.length s)%nat)
  else if String.eqb name "hash512" then Some (fun s => (hexHash512 =? String.length s)%nat)
  else if String.eqb name "earliest" then Some Routes.validate_earliest
  else if String.eqb name "latest" then Some Routes.validate_latest
  else None.

(** Calling [namedValidatorMap[name](str)]. *)
Definition callValidator (name : string) (str : string) : Result bool :=
  match namedValidatorMap name with
  | Some v => Ok (v str)
  | None => Throw (TypeError ("namedValidatorMap." ++ name ++ " is not a function"))
  end.

Section External.
Variable hexToUint8 : string -> Result (list Z).
Variable tryParseUint : string -> option Z.
Variable stringToAddress : string -> Result (list Z).

Definition bindR {A B} (r : Result A) (f : A -> Result B) : Result B :=
  match r with Ok a => f a | Throw e => Throw e end.

Definition lengthMsg (what str : string) : string :=
  "invalid length of " ++ what ++ " '" ++ nat_to_string (String.length str) ++ "'".

(** [namedParserMap]. *)
Definition namedParserMap (name : string) : option (string -> Result Value) :=
  if String.eqb name "objectId" then Some (fun str =>
    bindR (callValidator "objectId" str) (fun ok =>
      if ok then Ok (VString str) else Throw (Error "must be 12-byte hex string")))
  else if String.eqb name "namespaceId" then Some (fun str =>
    bindR (callValidator "namespaceId" str) (fun ok =>
      if ok then Ok (VUint64 (uint64_fromHex str)) else Throw (Error "must be 8-byte hex string")))
  else if String.eqb name "mosaicId" then Some (fun str =>
    bindR (callValidator "mosaicId" str) (fun ok =>
      if ok then Ok (VUint64 (uint64_fromHex str)) else Throw (Error "must be 8-byte hex string")))
  else if String.eqb name "uint" then Some (fun str =>
    match tryParseUint str with
    | None => Throw (Error "must be non-negative number")
    | Some n => Ok (VNumber n)
    end)
  else if String.eqb name "uintOrTimemod" then Some (fun str =>
    bindR (callValidator "earliest" str) (fun e =>
    if e then Ok (VNumber 0) else
    bindR (callValidator "latest" str) (fun l =>
    if l then Ok (VNumber MAX_SAFE_INTEGER) else
    match tryParseUint str with
    | None => Throw (Error "must be non-negative number")
    | Some n => Ok (VNumber n)
    end)))
  else if String.eqb name "address" then Some (fun str =>
    bindR (callValidator "address" str) (fun ok =>
      if ok then rmap VBytes (stringToAddress str) else Throw (Error (lengthMsg "address" str))))
  else if String.eqb name "publicKey" then Some (fun str =>
    bindR (callValidator "publicKey" str) (fun ok =>
      if ok then rmap VBytes (hexToUint8 str) else Throw (Error (lengthMsg "publicKey" str))))
  else if String.eqb name "accountId" then Some (fun str =>
    bindR (callValidator "publicKey" str) (fun pk =>
    if pk then rmap (VAccountId "publicKey") (hexToUint8 str) else
    bindR (callValidator "address" str) (fun ad =>
    if ad then rmap (VAccountId "address") (stringToAddress str)
    else Throw (Error (lengthMsg "account id" str)))))
  else if String.eqb name "hash256" then Some (fun str =>
    bindR (callValidator "hash256" str) (fun ok =>
      if ok then rmap VBytes (hexToUint8 str) else Throw (Error (lengthMsg "hash256" str))))
  else if String.eqb name "hash512" then Some (fun str =>
    (* the source calls [namedValidatorMap.has512] *)
    bindR (callValidator "has512" str) (fun ok =>
      if ok then rmap VBytes (hexToUint8 str) else Throw (Error (lengthMsg "hash512" str))))
  else None.

(** A parser argument: a function or the name of a named parser. *)
Inductive Parser :=
| Named (name : string)
| Fn (f : string -> Result Value).

(** [parseValue(str, parser)]. *)
Definition parseValue (str : string) (parser : Parser) : Result Value :=
  match parser with
  | Fn f => f str
  | Named n =>
      match namedParserMap n with
      | Some f => f str
      | None => Throw (TypeError "parser is not a function")
      end
  end.

(** [parseArgument(args, key, parser)]; route parameters are bound by
    the router, so [args[key]] is a string. *)
Definition parseArgument (args : string -> string) (key : string) (parser : Parser) : Result Value :=
  match parseValue (args key) parser with
  | Ok v => Ok v
  | Throw err => Throw (InvalidArgumentErrorWith (key ++ " has an invalid format") err)
  end.

(** [validateValue(value, validator)] with a named validator. *)
Definition validateValue (value : string) (validator : string) : Result bool :=
  callValidator validator value.

(** [args[key].map(realParser)]: the callback receives the element, its
    index and the whole array; the first exception ends the map. *)
Fixpoint mapIndexed (f : string -> option nat -> list string -> Result Value)
    (arr : list string) (i : nat) (l : list string) : Result (list Value) :=
  match l with
  | [] => Ok []
  | x :: r =>
      bindR (f x (Some i) arr) (fun v =>
      bindR (mapIndexed f arr (S i) r) (fun vs => Ok (v :: vs)))
  end.

(** An element parser: a function of (element, index, array), or a named
    parser, which ignores index and array. *)
Inductive ArrayParser :=
| ANamed (name : string)
| AFn (f : string -> option nat -> list string -> Result Value).

(** [parseArgumentAsArray(args, key, parser)]: [args[key]] is [Some arr]
    when it is an array. *)
Definition parseArgumentAsArray (args : string -> option (list string)) (key : string)
    (parser : ArrayParser) : Result (list Value) :=
  match args key with
  | None => Throw (InvalidArgumentError (key ++ " has an invalid format: not an array"))
  | Some arr =>
      let mapped :=
        match parser with
        | AFn f => mapIndexed f arr 0 arr
        | ANamed n =>
            match namedParserMap n with
            | Some f => mapIndexed (fun s _ _ => f s) arr 0 arr
            | None => Throw (TypeError "undefined is not a function")
            end
        end in
      match mapped with
      | Ok vs => Ok vs
      | Throw err =>
          Throw (InvalidArgumentErrorWith ("element in array " ++ key ++ " has an invalid format") err)
      end
  end.

(** The id parser of the [/transaction] GET and POST routes
    ([transactionRoutes.register]).  Called directly by [parseValue] it
    gets no index ([undefined]), and [0 < undefined] is false. *)
Definition transactionIdParser (transactionId : string) (index : option nat)
    (array : list string) : Result Value :=
  if match index with Some i => (0 <? i)%nat | None => false end
     && negb (String.length (nth 0 array "") =? String.length transactionId)%nat
  then Throw (Error ("all ids must be homogeneous, element "
                     ++ match index with Some i => nat_to_string i | None => "" end))
  else
    bindR (validateValue transactionId "objectId") (fun isId =>
    if isId then parseValue transactionId (Named "objectId") else
    bindR (validateValue transactionId "hash256") (fun isHash =>
    if isHash then parseValue transactionId (Named "hash256")
    else Throw (Error ("invalid length of transaction id '" ++ transactionId ++ "'")))).

(** [parsePagingArguments(args)]: [args[key]] is [undefined] ([None]) or
    a string; only truthy (non-empty) ones are parsed, and a falsy parse
    result ([undefined] or [0]) throws. *)
Record PagingOptions := mkPagingOptions { po_id : option string; po_pageSize : Z }.

Definition parsePagingArguments (args : string -> option string) : Result PagingOptions :=
  let truthy (k : string) :=
    match args k with Some s => negb (String.eqb s "") | None => false end in
  let idStep (o : PagingOptions) : Result PagingOptions :=
    match args "id" with
    | Some s =>
        if truthy "id" then
          if Routes.validate_objectId s then Ok (mkPagingOptions (Some s) (po_pageSize o))
          else Throw (InvalidArgumentError "id is not a valid object id")
        else Ok o
    | None => Ok o
    end in
  let pageSizeStep (o : PagingOptions) : Result PagingOptions :=
    match args "pageSize" with
    | Some s =>
        if truthy "pageSize" then
          match tryParseUint s with
          | Some n =>
              if n =? 0 then Throw (InvalidArgumentError "pageSize is not a valid unsigned integer")
              else Ok (mkPagingOptions (po_id o) n)
          | None => Throw (InvalidArgumentError "pageSize is not a valid unsigned integer")
          end
        else Ok o
    | None => Ok o
    end in
  bindR (idStep (mkPagingOptions None 0)) pageSizeStep.

End External.

End Parse.

(** [createSender(type)]: [sendArray] and [sendOne].  The handler gets
    an array or a single value; documents are objects, hence truthy, and
    a single value is [None] when it is [undefined] or [null]. *)
Module Sender.

Inductive Response (D : Type) :=
| Payload (object : D)
| PayloadArray (array : list D)
| NotFoundError (id : string)
| InternalError (msg : string).
Arguments Payload {D}.
Arguments PayloadArray {D}.
Arguments NotFoundError {D}.
Arguments InternalError {D}.

Inductive Received (D : Type) :=
| RArray (array : list D)
| RObject (object : option D).
Arguments RArray {D}.
Arguments RObject {D}.

Definition sendArray {D} (id : string) (r : Received D) : Response D :=
  match r with
  | RArray array => PayloadArray array
  | RObject _ => InternalError ("error retrieving data for id: '" ++ id ++ "'")
  end.

Definition sendOneObject {D} (id : string) (object : option D) : Response D :=
  match object with
  | None => NotFoundError id
  | Some d => Payload d
  end.

(** [object.length && object[0]] is [0], a falsy value, for an empty array. *)
Definition sendOne {D} (id : string) (r : Received D) : Response D :=
  match r with
  | RArray array =>
      if (2 <=? List.length array)%nat then
        InternalError ("error retrieving data for id: '" ++ id ++ "' (length "
                       ++ Parse.nat_to_string (List.length array) ++ ")")
      else sendOneObject id (hd_error array)
  | RObject object => sendOneObject id object
  end.

End Sender.

(** [addGetPostDocumentRoutes] and its use by the [/transaction] routes. *)
Module DocRoutes.

Section Routes.
Variable hexToUint8 : string -> Parse.Result (list Z).
Variable tryParseUint : string -> option Z.
Variable stringToAddress : string -> Parse.Result (list Z).

Inductive Outcome (D : Type) :=
| Thrown (e : Parse.Exn)
| Responded (r : Sender.Response D).
Arguments Thrown {D}.
Arguments Responded {D}.

(** The GET route: the handler's outcome and the keys passed to the
    retriever ([None] when it is not called). *)
Definition getRoute {D} (documentRetriever : list Parse.Value -> list D) (singular : string)
    (parser : Parse.Parser) (params : string -> string)
    : Outcome D * option (list Parse.Value) :=
  match Parse.parseArgument hexToUint8 tryParseUint stringToAddress params singular parser with
  | Parse.Throw e => (Thrown e, None)
  | Parse.Ok key =>
      (Responded (Sender.sendOne (params singular) (Sender.RArray (documentRetriever [key]))),
       Some [key])
  end.

(** The POST route; [idText] is how [req.params[plural]] prints. *)
Definition postRoute {D} (documentRetriever : list Parse.Value -> list D) (plural : string)
    (parser : Parse.ArrayParser) (params : string -> option (list string)) (idText : string)
    : Outcome D * option (list Parse.Value) :=
  match Parse.parseArgumentAsArray hexToUint8 tryParseUint stringToAddress params plural parser with
  | Parse.Throw e => (Thrown e, None)
  | Parse.Ok keys =>
      (Responded (Sender.sendArray idText (Sender.RArray (documentRetriever keys))), Some keys)
  end.

(** The parser of the [/transaction] routes. *)
Definition transactionIdParser :=
  Parse.transactionIdParser hexToUint8 tryParseUint stringToAddress.

(** The retriever of the [/transaction] routes: [transactionsByIds] when
    the first key is a string, [transactionsByHashes] otherwise. *)
Definition transactionRetriever {D} (transactionsByIds transactionsByHashes : list Parse.Value -> list D)
    (params : list Parse.Value) : list D :=
  match params with
  | Parse.VString _ :: _ => transactionsByIds params
  | _ => transactionsByHashes params
  end.

Definition getTransaction {D} (byIds byHashes : list Parse.Value -> list D) (params : string -> string) :=
  getRoute (transactionRetriever byIds byHashes) "transactionId"
    (Parse.Fn (fun s => transactionIdParser s None [])) params.

Definition postTransactions {D} (byIds byHashes : list Parse.Value -> list D)
    (params : string -> option (list string)) (idText : string) :=
  postRoute (transactionRetriever byIds byHashes) "transactionIds"
    (Parse.AFn transactionIdParser) params idText.

End Routes.

End DocRoutes.

(** ** Block retrieval of the newer [CatapultDb] *)

Module Blocks.

(** A block document; the projections remove the two Merkle trees. *)
Record Block := mkBlock {
  blk__id : option Z;
  blk_height : Z;
  blk_transactionMerkleTree : option (list Z);
  blk_statementMerkleTree : option (list Z)
}.

Record BlockStore := mkBlockStore {
  blocks_of : string -> list Block;
  bs_chainHeight : Z
}.

Definition BM (A : Type) : Type := BlockStore -> A * list Query.

(** [Long.prototype.subtract]. *)
Definition subtract (a b : Z) : Z := Long.toSigned64 (a - b).

(** [calculateFromHeight(height, chainHeight, numBlocks)]: (start, end). *)
Definition calculateFromHeight (height chainHeight numBlocks : Z) : Z * Z :=
  let one := 1 in
  let count := numBlocks in
  let endHeight := if chainHeight <? height then Long.add chainHeight one else height in
  let startHeight := if count <? endHeight then subtract endHeight count else one in
  (startHeight, endHeight).

(** [calculateSinceHeight(height, chainHeight, numBlocks)]: (start, end). *)
Definition calculateSinceHeight (height chainHeight numBlocks : Z) : Z * Z :=
  let one := 1 in
  let count := numBlocks in
  let startHeight := if chainHeight <? height then Long.add chainHeight one else height in
  let endHeight := Long.add startHeight count in
  (startHeight, endHeight).

(** [buildBlocksFromOptions(height, numBlocks, chainHeight)]:
    (startHeight, endHeight, numBlocks). *)
Definition buildBlocksFromOptions (height numBlocks chainHeight : Z) : Z * Z * Z :=
  let one := 1 in
  let startHeight := if height =? 0 then Long.add (subtract chainHeight numBlocks) one else height in
  let calculatedEndHeight := Long.add startHeight numBlocks in
  let chainEndHeight := Long.add chainHeight one in
  let endHeight := if calculatedEndHeight <? chainEndHeight then calculatedEndHeight else chainEndHeight in
  (startHeight, endHeight, subtract endHeight startHeight).

(** Projection [{ 'meta.transactionMerkleTree': 0, 'meta.statementMerkleTree': 0 }]. *)
Definition hideMerkleTrees (b : Block) : Block :=
  mkBlock (blk__id b) (blk_height b) None None.

Definition deleteId (b : Block) : Block :=
  mkBlock None (blk_height b) (blk_transactionMerkleTree b) (blk_statementMerkleTree b).

Definition sorting : Mongo.SortSpec Block := [(fun b => Some (blk_height b), Mongo.Desc)].

Definition chainStatisticCurrent : BM Z :=
  fun bs => (bs_chainHeight bs, [QFindOne "chainStatistic"]).

(** [sortedBlocks(collectionName, condition, count)]. *)
Definition sortedBlocks (collectionName : string) (condition : Block -> bool) (count : nat)
    : BM (list Block) :=
  fun bs =>
    (map deleteId
       (Mongo.toArray (blocks_of bs collectionName)
          (Mongo.limit count (Mongo.project hideMerkleTrees
             (Mongo.sort sorting (Mongo.find condition))))),
     [QFind collectionName]).

(** [{ 'block.height': { $gte: start, $lt: end } }]. *)
Definition fromCondition (startHeight endHeight : Z) (b : Block) : bool :=
  (startHeight <=? blk_height b) && (blk_height b <? endHeight).

(** [{ 'block.height': { $gt: start, $lte: end } }]. *)
Definition sinceCondition (startHeight endHeight : Z) (b : Block) : bool :=
  (startHeight <? blk_height b) && (blk_height b <=? endHeight).

(** [blocksFromHeight(collectionName, height, count)]. *)
Definition blocksFromHeight (collectionName : string) (height : Z) (count : nat) : BM (list Block) :=
  if (count =? 0)%nat then fun _ => ([], [])
  else fun bs =>
    let (chainHeight, q1) := chainStatisticCurrent bs in
    let (startHeight, endHeight) := calculateFromHeight height chainHeight (Z.of_nat count) in
    let (blocks, q2) := sortedBlocks collectionName (fromCondition startHeight endHeight) count bs in
    (blocks, q1 ++ q2).

(** [blocksSinceHeight(collectionName, height, count)]. *)
Definition blocksSinceHeight (collectionName : string) (height : Z) (count : nat) : BM (list Block) :=
  if (count =? 0)%nat then fun _ => ([], [])
  else fun bs =>
    let (chainHeight, q1) := chainStatisticCurrent bs in
    let (startHeight, endHeight) := calculateSinceHeight height chainHeight (Z.of_nat count) in
    let (blocks, q2) := sortedBlocks collectionName (sinceCondition startHeight endHeight) count bs in
    (blocks, q1 ++ q2).

(** [blocksFrom(height, numBlocks)]: no limit, the range bounds the page. *)
Definition blocksFrom (height : Z) (numBlocks : nat) : BM (list Block) :=
  if (numBlocks =? 0)%nat then fun _ => ([], [])
  else fun bs =>
    let (chainHeight, q1) := chainStatisticCurrent bs in
    let '(startHeight, endHeight, _) := buildBlocksFromOptions height (Z.of_nat numBlocks) chainHeight in
    (map deleteId
       (Mongo.toArray (blocks_of bs "blocks")
          (Mongo.sort sorting (Mongo.project hideMerkleTrees
             (Mongo.find (fromCondition startHeight endHeight))))),
     q1 ++ [QFind "blocks"]).

End Blocks.

(** ** Paged queries of the newer [CatapultDb] *)

Module Paged.

(** [boundPageSize(pageSize, bounds)]. *)
Definition boundPageSize (pageSize pageSizeMin pageSizeMax : Z) : Z :=
  Z.max pageSizeMin (Z.min pageSizeMax pageSize).

(** The constructor's [options.pageSizeMin || 10], [options.pageSizeMax || 100]. *)
Definition orDefault (v : option Z) (d : Z) : Z :=
  match v with Some x => if x =? 0 then d else x | None => d end.

Record Bounds := mkBounds { pageSizeMin : Z; pageSizeMax : Z }.

Definition bounds_of (optMin optMax : option Z) : Bounds :=
  mkBounds (orDefault optMin 10) (orDefault optMax 100).

(** [queryPagedDocuments(collectionName, conditions, id, pageSize, options)]
    on a transaction collection: [sortOrder] is [options.sortOrder || -1];
    an id adds [_id < id] (descending) or [_id > id] (ascending). *)
Definition queryPagedDocuments (b : Bounds) (collectionName : string)
    (conditions : Transaction -> bool) (id : option Z) (pageSize : Z)
    (sortOrder : option Z) (projection : Transaction -> Transaction) : M (list Transaction) :=
  let order := orDefault sortOrder (-1) in
  let conds (t : Transaction) :=
    conditions t
    && match id with
       | Some i => Acc.cmp (if 0 <? order then Acc.OGt else Acc.OLt) (tx__id t) (Some i)
       | None => true
       end in
  fun st =>
    (Mongo.toArray (transactions_of st collectionName)
       (Mongo.limit (Z.to_nat (boundPageSize pageSize (pageSizeMin b) (pageSizeMax b)))
          (Mongo.sort [(tx__id, if 0 <? order then Mongo.Asc else Mongo.Desc)]
             (Mongo.project projection (Mongo.find conds)))),
     [QFind collectionName]).

End Paged.

(** ** Namespace cursor of [NamespaceDb] *)

Module NsCursor.

Definition copyAndDeleteId (n : Namespace) : Namespace :=
  mkNamespace None (ns__id n) (ns_active n) (ns_levels n) (ns_depth n)
    (ns_alias_mosaicId n) (ns_startHeight n).

Definition sorting : Mongo.SortSpec Namespace :=
  [(fun n => Some (ns_startHeight n), Mongo.Desc); (ns__id, Mongo.Desc)].

(** [sortedNamespaces(collectionName, condition, count)]. *)
Definition sortedNamespaces (collectionName : string) (condition : Namespace -> bool)
    (count : nat) : M (list Namespace) :=
  fun st =>
    (map copyAndDeleteId
       (Mongo.toArray (namespaces_of st collectionName)
          (Mongo.limit count (Mongo.sort sorting (Mongo.find condition)))),
     [QFind collectionName]).

Definition namespacesFrom (collectionName : string) (height id : Z) (count : nat) :=
  sortedNamespaces collectionName
    (fun n => ((ns_startHeight n =? height) && Acc.cmp Acc.OLt (ns__id n) (Some id))
              || (ns_startHeight n <? height)) count.

Definition namespacesSince (collectionName : string) (height id : Z) (count : nat) :=
  sortedNamespaces collectionName
    (fun n => ((ns_startHeight n =? height) && Acc.cmp Acc.OGt (ns__id n) (Some id))
              || (height <? ns_startHeight n)) count.

End NsCursor.

(** ** Every cursor method built on the retrieval helpers

    The cursor methods of [CatapultDb] (part_003), of the plugin database
    of part_002, of [NamespaceDb] and of the helper-based [MosaicDb]
    (blockRoutes.js 529-678) that are not modelled above, and, for each
    entity, the method a cursor route reaches through the name
    [entity + duration + anchor kind]. *)

Module Cursors.

Inductive Direction := From | Since.

(** *** Transactions *)



(** *** Transactions by type ([transactionsByType*] of [CatapultDb]) *)

(** The condition of [transactionsByTypeFrom]. *)
Definition byTypeFromCondition (collectionName : string) (height index type : Z)
    (t : Transaction) : bool :=
  Bool.eqb (Tx.exists_field (tx_aggregateId t)) (Tx.isAggregate collectionName)
  && (tx_type t =? type)
  && (((tx_height t =? height) && (tx_index t <? index)) || (tx_height t <? height)).

(** The condition of [transactionsByTypeSince]. *)
Definition byTypeSinceCondition (collectionName : string) (height index type : Z)
    (t : Transaction) : bool :=
  Bool.eqb (Tx.exists_field (tx_aggregateId t)) (Tx.isAggregate collectionName)
  && (tx_type t =? type)
  && (((tx_height t =? height) && (index <? tx_index t)) || (height <? tx_height t)).

Definition transactionsByTypeFrom (collectionName : string) (height index type : Z) (count : nat) :=
  Tx.sortedTransactions collectionName (byTypeFromCondition collectionName height index type) count.

Definition transactionsByTypeSince (collectionName : string) (height index type : Z) (count : nat) :=
  Tx.sortedTransactions collectionName (byTypeSinceCondition collectionName height index type) count.

(** [db[method](collectionName, ...genArgs, type, count)]. *)
Definition byType_from (collectionName : string) (type : Z) (a : Z * Z) (count : nat) :=
  transactionsByTypeFrom collectionName (fst a) (snd a) type count.
Definition byType_since (collectionName : string) (type : Z) (a : Z * Z) (count : nat) :=
  transactionsByTypeSince collectionName (fst a) (snd a) type count.





(** *** Transactions by type with a filter (part_002 496-575) *)

Section WithFilter.

(** The range methods [transactionsByTypeWithFilterFrom] and
    [transactionsByTypeWithFilterSince]
    [(collectionName, height, index, type, filter, count)] end in
    [catapultDb.addAggregateTransactions], which the sources do not
    define; they are left abstract. *)
Variable transactionsByTypeWithFilterFrom : string -> Z -> Z -> Z -> string -> nat -> M (list Transaction).
Variable transactionsByTypeWithFilterSince : string -> Z -> Z -> Z -> string -> nat -> M (list Transaction).






End WithFilter.

(** *** Accounts *)

(** The keyword anchors of the harvested-blocks, harvested-fees and
    currency-balance cursors. *)
Definition accountsByHarvestedBlocksFromLeast (collectionName : string) (count : nat)
  : M (option (list Account)) := arrayFromEmpty.
Definition accountsByHarvestedBlocksSinceLeast (collectionName : string) :=
  arrayFromAbsolute (Acc.accountsByHarvestedBlocksSince collectionName) Acc.minArgs.
Definition accountsByHarvestedBlocksFromMost (collectionName : string) :=
  arrayFromAbsolute (Acc.accountsByHarvestedBlocksFrom collectionName) Acc.maxArgs.
Definition accountsByHarvestedBlocksSinceMost (collectionName : string) (count : nat)
  : M (option (list Account)) := arrayFromEmpty.

Definition accountsByHarvestedFeesFromLeast (collectionName : string) (count : nat)
  : M (option (list Account)) := arrayFromEmpty.
Definition accountsByHarvestedFeesSinceLeast (collectionName : string) :=
  arrayFromAbsolute (Acc.accountsByHarvestedFeesSince collectionName) Acc.minArgs.
Definition accountsByHarvestedFeesFromMost (collectionName : string) :=
  arrayFromAbsolute (Acc.accountsByHarvestedFeesFrom collectionName) Acc.maxArgs.
Definition accountsByHarvestedFeesSinceMost (collectionName : string) (count : nat)
  : M (option (list Account)) := arrayFromEmpty.

Definition accountsByCurrencyBalanceFromLeast (collectionName : string) (count : nat)
  : M (option (list Account)) := arrayFromEmpty.
Definition accountsByCurrencyBalanceSinceLeast (collectionName : string) :=
  arrayFromAbsolute (Ns.accountsByCurrencyBalanceSince collectionName) Acc.minArgs.
Definition accountsByCurrencyBalanceFromMost (collectionName : string) :=
  arrayFromAbsolute (Ns.accountsByCurrencyBalanceFrom collectionName) Acc.maxArgs.
Definition accountsByCurrencyBalanceSinceMost (collectionName : string) (count : nat)
  : M (option (list Account)) := arrayFromEmpty.

(** The harvest-balance cursor of [NamespaceDb]. *)

(** [rawAccountWithHarvestBalanceByAddress]. *)
Definition rawAccountWithHarvestBalanceByAddress (collectionName : string) (address : Z)
    : M (option Account) :=
  mosaicId <- Ns.networkHarvestMosaic ;;
  Acc.rawAccountByAddress collectionName address (Ns.addBalanceFields mosaicId)
    (Acc.projectAccount false false false).

(** [sortedAccountsByHarvestBalance]. *)
Definition sortedAccountsByHarvestBalance (collectionName : string)
    (match_ : Account -> bool) (count : nat) : M (list Account) :=
  mosaicId <- Ns.networkHarvestMosaic ;;
  Ns.sortedAccountsByMosaicBalance collectionName mosaicId match_ count.

Definition accountsByHarvestBalanceFrom (collectionName : string) (a : Acc.Args) (numAccounts : nat) :=
  let '(balance, height, id) := a in
  sortedAccountsByHarvestBalance collectionName
    (Acc.accountMatchCondition "balance" Acc.OLt balance height id) numAccounts.

Definition accountsByHarvestBalanceSince (collectionName : string) (a : Acc.Args) (numAccounts : nat) :=
  let '(balance, height, id) := a in
  sortedAccountsByHarvestBalance collectionName
    (Acc.accountMatchCondition "balance" Acc.OGt balance height id) numAccounts.

Definition accountsByHarvestBalanceFromLeast (collectionName : string) (count : nat)
  : M (option (list Account)) := arrayFromEmpty.
Definition accountsByHarvestBalanceSinceLeast (collectionName : string) :=
  arrayFromAbsolute (accountsByHarvestBalanceSince collectionName) Acc.minArgs.
Definition accountsByHarvestBalanceFromMost (collectionName : string) :=
  arrayFromAbsolute (accountsByHarvestBalanceFrom collectionName) Acc.maxArgs.
Definition accountsByHarvestBalanceSinceMost (collectionName : string) (count : nat)
  : M (option (list Account)) := arrayFromEmpty.

Definition accountsByHarvestBalanceFromAccount (collectionName : string) :=
  arrayFromRecord (accountsByHarvestBalanceFrom collectionName) Ns.balanceGenArgs.
(** As in the source, the [Since] variant calls the [From] method. *)
Definition accountsByHarvestBalanceSinceAccount (collectionName : string) :=
  arrayFromRecord (accountsByHarvestBalanceFrom collectionName) Ns.balanceGenArgs.

Definition accountsByHarvestBalanceFromAddress (collectionName : string) :=
  arrayFromId (rawAccountWithHarvestBalanceByAddress collectionName)
    (accountsByHarvestBalanceFromAccount collectionName).
Definition accountsByHarvestBalanceSinceAddress (collectionName : string) :=
  arrayFromId (rawAccountWithHarvestBalanceByAddress collectionName)
    (accountsByHarvestBalanceSinceAccount collectionName).

Inductive AccountAnchor :=
| AccLeast
| AccMost
| AccAccount (account : option Account)
| AccAddress (address : Z)
| AccPublicKey (publicKey : Z).

(** The [sortType] of the account cursor routes. *)
Inductive AccountSort :=
| ByImportance
| ByHarvestedBlocks
| ByHarvestedFees
| ByCurrencyBalance
| ByHarvestBalance.


Section PublicKeys.

(** [catapultDb.publicKeyToAddress]: the SDK's
    [address.publicKeyToAddress(publicKey, networkId)]. *)
Variable publicKeyToAddress : Z -> Z.

(** [rawAccountWith<sort>ByPublicKey]. *)
Definition rawAccountWithImportanceByPublicKey (collectionName : string) (publicKey : Z) :=
  Acc.rawAccountWithImportanceByAddress collectionName (publicKeyToAddress publicKey).
Definition rawAccountWithHarvestedBlocksByPublicKey (collectionName : string) (publicKey : Z) :=
  Acc.rawAccountWithHarvestedBlocksByAddress collectionName (publicKeyToAddress publicKey).
Definition rawAccountWithHarvestedFeesByPublicKey (collectionName : string) (publicKey : Z) :=
  Acc.rawAccountWithHarvestedFeesByAddress collectionName (publicKeyToAddress publicKey).
Definition rawAccountWithCurrencyBalanceByPublicKey (collectionName : string) (publicKey : Z) :=
  Ns.rawAccountWithCurrencyBalanceByAddress collectionName (publicKeyToAddress publicKey).
Definition rawAccountWithHarvestBalanceByPublicKey (collectionName : string) (publicKey : Z) :=
  rawAccountWithHarvestBalanceByAddress collectionName (publicKeyToAddress publicKey).

Definition accountsByImportanceFromPublicKey (collectionName : string) :=
  arrayFromId (rawAccountWithImportanceByPublicKey collectionName)
    (Acc.accountsByImportanceFromAccount collectionName).
Definition accountsByImportanceSincePublicKey (collectionName : string) :=
  arrayFromId (rawAccountWithImportanceByPublicKey collectionName)
    (Acc.accountsByImportanceSinceAccount collectionName).
Definition accountsByHarvestedBlocksFromPublicKey (collectionName : string) :=
  arrayFromId (rawAccountWithHarvestedBlocksByPublicKey collectionName)
    (Acc.accountsByHarvestedBlocksFromAccount collectionName).
Definition accountsByHarvestedBlocksSincePublicKey (collectionName : string) :=
  arrayFromId (rawAccountWithHarvestedBlocksByPublicKey collectionName)
    (Acc.accountsByHarvestedBlocksSinceAccount collectionName).
Definition accountsByHarvestedFeesFromPublicKey (collectionName : string) :=
  arrayFromId (rawAccountWithHarvestedFeesByPublicKey collectionName)
    (Acc.accountsByHarvestedFeesFromAccount collectionName).
Definition accountsByHarvestedFeesSincePublicKey (collectionName : string) :=
  arrayFromId (rawAccountWithHarvestedFeesByPublicKey collectionName)
    (Acc.accountsByHarvestedFeesSinceAccount collectionName).
Definition accountsByCurrencyBalanceFromPublicKey (collectionName : string) :=
  arrayFromId (rawAccountWithCurrencyBalanceByPublicKey collectionName)
    (Ns.accountsByCurrencyBalanceFromAccount collectionName).
Definition accountsByCurrencyBalanceSincePublicKey (collectionName : string) :=
  arrayFromId (rawAccountWithCurrencyBalanceByPublicKey collectionName)
    (Ns.accountsByCurrencyBalanceSinceAccount collectionName).
Definition accountsByHarvestBalanceFromPublicKey (collectionName : string) :=
  arrayFromId (rawAccountWithHarvestBalanceByPublicKey collectionName)
    (accountsByHarvestBalanceFromAccount collectionName).
Definition accountsByHarvestBalanceSincePublicKey (collectionName : string) :=
  arrayFromId (rawAccountWithHarvestBalanceByPublicKey collectionName)
    (accountsByHarvestBalanceSinceAccount collectionName).

(** [db['accounts' + sortType + duration + anchor kind]]. *)
Definition accounts (sortType : AccountSort) (duration : Direction) (collectionName : string)
    (anchor : AccountAnchor) (count : nat) : M (option (list Account)) :=
  match sortType, duration, anchor with
  | ByImportance, From, AccLeast => Acc.accountsByImportanceFromLeast collectionName count
  | ByImportance, Since, AccLeast => Acc.accountsByImportanceSinceLeast collectionName count
  | ByImportance, From, AccMost => Acc.accountsByImportanceFromMost collectionName count
  | ByImportance, Since, AccMost => Acc.accountsByImportanceSinceMost collectionName count
  | ByImportance, From, AccAccount a => Acc.accountsByImportanceFromAccount collectionName a count
  | ByImportance, Since, AccAccount a => Acc.accountsByImportanceSinceAccount collectionName a count
  | ByImportance, From, AccAddress a => Acc.accountsByImportanceFromAddress collectionName a count
  | ByImportance, Since, AccAddress a => Acc.accountsByImportanceSinceAddress collectionName a count
  | ByImportance, From, AccPublicKey k => accountsByImportanceFromPublicKey collectionName k count
  | ByImportance, Since, AccPublicKey k => accountsByImportanceSincePublicKey collectionName k count
  | ByHarvestedBlocks, From, AccLeast => accountsByHarvestedBlocksFromLeast collectionName count
  | ByHarvestedBlocks, Since, AccLeast => accountsByHarvestedBlocksSinceLeast collectionName count
  | ByHarvestedBlocks, From, AccMost => accountsByHarvestedBlocksFromMost collectionName count
  | ByHarvestedBlocks, Since, AccMost => accountsByHarvestedBlocksSinceMost collectionName count
  | ByHarvestedBlocks, From, AccAccount a => Acc.accountsByHarvestedBlocksFromAccount collectionName a count
  | ByHarvestedBlocks, Since, AccAccount a => Acc.accountsByHarvestedBlocksSinceAccount collectionName a count
  | ByHarvestedBlocks, From, AccAddress a => Acc.accountsByHarvestedBlocksFromAddress collectionName a count
  | ByHarvestedBlocks, Since, AccAddress a => Acc.accountsByHarvestedBlocksSinceAddress collectionName a count
  | ByHarvestedBlocks, From, AccPublicKey k => accountsByHarvestedBlocksFromPublicKey collectionName k count
  | ByHarvestedBlocks, Since, AccPublicKey k => accountsByHarvestedBlocksSincePublicKey collectionName k count
  | ByHarvestedFees, From, AccLeast => accountsByHarvestedFeesFromLeast collectionName count
  | ByHarvestedFees, Since, AccLeast => accountsByHarvestedFeesSinceLeast collectionName count
  | ByHarvestedFees, From, AccMost => accountsByHarvestedFeesFromMost collectionName count
  | ByHarvestedFees, Since, AccMost => accountsByHarvestedFeesSinceMost collectionName count
  | ByHarvestedFees, From, AccAccount a => Acc.accountsByHarvestedFeesFromAccount collectionName a count
  | ByHarvestedFees, Since, AccAccount a => Acc.accountsByHarvestedFeesSinceAccount collectionName a count
  | ByHarvestedFees, From, AccAddress a => Acc.accountsByHarvestedFeesFromAddress collectionName a count
  | ByHarvestedFees, Since, AccAddress a => Acc.accountsByHarvestedFeesSinceAddress collectionName a count
  | ByHarvestedFees, From, AccPublicKey k => accountsByHarvestedFeesFromPublicKey collectionName k count
  | ByHarvestedFees, Since, AccPublicKey k => accountsByHarvestedFeesSincePublicKey collectionName k count
  | ByCurrencyBalance, From, AccLeast => accountsByCurrencyBalanceFromLeast collectionName count
  | ByCurrencyBalance, Since, AccLeast => accountsByCurrencyBalanceSinceLeast collectionName count
  | ByCurrencyBalance, From, AccMost => accountsByCurrencyBalanceFromMost collectionName count
  | ByCurrencyBalance, Since, AccMost => accountsByCurrencyBalanceSinceMost collectionName count
  | ByCurrencyBalance, From, AccAccount a => Ns.accountsByCurrencyBalanceFromAccount collectionName a count
  | ByCurrencyBalance, Since, AccAccount a => Ns.accountsByCurrencyBalanceSinceAccount collectionName a count
  | ByCurrencyBalance, From, AccAddress a => Ns.accountsByCurrencyBalanceFromAddress collectionName a count
  | ByCurrencyBalance, Since, AccAddress a => Ns.accountsByCurrencyBalanceSinceAddress collectionName a count
  | ByCurrencyBalance, From, AccPublicKey k => accountsByCurrencyBalanceFromPublicKey collectionName k count
  | ByCurrencyBalance, Since, AccPublicKey k => accountsByCurrencyBalanceSincePublicKey collectionName k count
  | ByHarvestBalance, From, AccLeast => accountsByHarvestBalanceFromLeast collectionName count
  | ByHarvestBalance, Since, AccLeast => accountsByHarvestBalanceSinceLeast collectionName count
  | ByHarvestBalance, From, AccMost => accountsByHarvestBalanceFromMost collectionName count
  | ByHarvestBalance, Since, AccMost => accountsByHarvestBalanceSinceMost collectionName count
  | ByHarvestBalance, From, AccAccount a => accountsByHarvestBalanceFromAccount collectionName a count
  | ByHarvestBalance, Since, AccAccount a => accountsByHarvestBalanceSinceAccount collectionName a count
  | ByHarvestBalance, From, AccAddress a => accountsByHarvestBalanceFromAddress collectionName a count
  | ByHarvestBalance, Since, AccAddress a => accountsByHarvestBalanceSinceAddress collectionName a count
  | ByHarvestBalance, From, AccPublicKey k => accountsByHarvestBalanceFromPublicKey collectionName k count
  | ByHarvestBalance, Since, AccPublicKey k => accountsByHarvestBalanceSincePublicKey collectionName k count
  end.

End PublicKeys.

(** *** Namespaces ([NamespaceDb]) *)

Inductive NsAnchor :=
| NsEarliest
| NsLatest
| NsNamespace (namespace : option Namespace)
| NsId (id : Z * Z)
| NsObjectId (id : Z).

(** [namespacesFrom(collectionName, height, id, count)] and
    [namespacesSince]: as [NsCursor.namespacesFrom] and
    [NsCursor.namespacesSince], with [id] the JavaScript value passed,
    which is [undefined] for a record without [_id]. *)
Definition namespacesFrom (collectionName : string) (a : Z * option Z) (count : nat) :=
  let '(height, id) := a in
  NsCursor.sortedNamespaces collectionName
    (fun n => ((ns_startHeight n =? height) && Acc.cmp Acc.OLt (ns__id n) id)
              || (ns_startHeight n <? height)) count.

Definition namespacesSince (collectionName : string) (a : Z * option Z) (count : nat) :=
  let '(height, id) := a in
  NsCursor.sortedNamespaces collectionName
    (fun n => ((ns_startHeight n =? height) && Acc.cmp Acc.OGt (ns__id n) id)
              || (height <? ns_startHeight n)) count.

Definition namespacesFromEarliest (collectionName : string) (count : nat)
  : M (option (list Namespace)) := arrayFromEmpty.
Definition namespacesSinceEarliest (collectionName : string) :=
  arrayFromAbsolute (namespacesSince collectionName) (minLong, Some (oid_value minObjectId)).
Definition namespacesFromLatest (collectionName : string) :=
  arrayFromAbsolute (namespacesFrom collectionName) (maxLong, Some (oid_value maxObjectId)).
Definition namespacesSinceLatest (collectionName : string) (count : nat)
  : M (option (list Namespace)) := arrayFromEmpty.

(** [[namespace.namespace.startHeight, namespace._id]]. *)
Definition namespaceGenArgs (n : Namespace) : Z * option Z := (ns_startHeight n, ns__id n).

Definition namespacesFromNamespace (collectionName : string) :=
  arrayFromRecord (namespacesFrom collectionName) namespaceGenArgs.
Definition namespacesSinceNamespace (collectionName : string) :=
  arrayFromRecord (namespacesSince collectionName) namespaceGenArgs.

(** [rawNamespaceByObjectId]: [findOne] on [_id]. *)
Definition rawNamespaceByObjectId (collectionName : string) (id : Z) : M (option Namespace) :=
  fun st => (Mongo.findOne (namespaces_of st collectionName)
               (fun n => match ns__id n with Some i => i =? id | None => false end),
             [QFindOne collectionName]).

Definition namespacesFromId (collectionName : string) :=
  arrayFromId (Ns.rawNamespaceById collectionName) (namespacesFromNamespace collectionName).
Definition namespacesSinceId (collectionName : string) :=
  arrayFromId (Ns.rawNamespaceById collectionName) (namespacesSinceNamespace collectionName).
Definition namespacesFromObjectId (collectionName : string) :=
  arrayFromId (rawNamespaceByObjectId collectionName) (namespacesFromNamespace collectionName).
Definition namespacesSinceObjectId (collectionName : string) :=
  arrayFromId (rawNamespaceByObjectId collectionName) (namespacesSinceNamespace collectionName).

Definition namespaces (duration : Direction) (collectionName : string) (anchor : NsAnchor)
    (count : nat) : M (option (list Namespace)) :=
  match duration, anchor with
  | From, NsEarliest => namespacesFromEarliest collectionName count
  | Since, NsEarliest => namespacesSinceEarliest collectionName count
  | From, NsLatest => namespacesFromLatest collectionName count
  | Since, NsLatest => namespacesSinceLatest collectionName count
  | From, NsNamespace n => namespacesFromNamespace collectionName n count
  | Since, NsNamespace n => namespacesSinceNamespace collectionName n count
  | From, NsId i => namespacesFromId collectionName i count
  | Since, NsId i => namespacesSinceId collectionName i count
  | From, NsObjectId i => namespacesFromObjectId collectionName i count
  | Since, NsObjectId i => namespacesSinceObjectId collectionName i count
  end.

(** *** Mosaics ([MosaicDb] of blockRoutes.js 529-678) *)

Inductive MosaicAnchor :=
| MoEarliest
| MoLatest
| MoMosaic (mosaic : option Mosaic)
| MoId (id : Z * Z).

(** [mosaicsFrom] and [mosaicsSince] as [Mos.mosaicsFrom] and
    [Mos.mosaicsSince], with [id] the JavaScript value passed. *)
Definition mosaicsFrom (collectionName : string) (a : Z * option Z) (count : nat) :=
  let '(height, id) := a in
  Mos.sortedMosaics collectionName
    (fun m => ((mo_startHeight m =? height) && Acc.cmp Acc.OLt (mo__id m) id)
              || (mo_startHeight m <? height)) false count.

Definition mosaicsSince (collectionName : string) (a : Z * option Z) (count : nat) :=
  let '(height, id) := a in
  Mos.sortedMosaics collectionName
    (fun m => ((mo_startHeight m =? height) && Acc.cmp Acc.OGt (mo__id m) id)
              || (height <? mo_startHeight m)) true count.

Definition mosaicsFromEarliest (collectionName : string) (count : nat)
  : M (option (list Mosaic)) := arrayFromEmpty.
Definition mosaicsSinceLatest (collectionName : string) (count : nat)
  : M (option (list Mosaic)) := arrayFromEmpty.

(** [[mosaic.mosaic.startHeight, mosaic._id]]. *)
Definition mosaicGenArgs (m : Mosaic) : Z * option Z := (mo_startHeight m, mo__id m).

Definition mosaicsFromMosaic (collectionName : string) :=
  arrayFromRecord (mosaicsFrom collectionName) mosaicGenArgs.
Definition mosaicsSinceMosaic (collectionName : string) :=
  arrayFromRecord (mosaicsSince collectionName) mosaicGenArgs.

(** [rawMosaicById]: [findOne] on [mosaic.id]. *)
Definition rawMosaicById (collectionName : string) (id : Z * Z) : M (option Mosaic) :=
  fun st => (Mongo.findOne (mosaics_of st collectionName)
               (fun m => mo_id m =? Long.make (fst id) (snd id)),
             [QFindOne collectionName]).

Definition mosaicsFromId (collectionName : string) :=
  arrayFromId (rawMosaicById collectionName) (mosaicsFromMosaic collectionName).
Definition mosaicsSinceId (collectionName : string) :=
  arrayFromId (rawMosaicById collectionName) (mosaicsSinceMosaic collectionName).

Definition mosaics (duration : Direction) (collectionName : string) (anchor : MosaicAnchor)
    (count : nat) : M (option (list Mosaic)) :=
  match duration, anchor with
  | From, MoEarliest => mosaicsFromEarliest collectionName count
  | Since, MoEarliest => Mos.mosaicsSinceEarliest collectionName count
  | From, MoLatest => Mos.mosaicsFromLatest collectionName count
  | Since, MoLatest => mosaicsSinceLatest collectionName count
  | From, MoMosaic m => mosaicsFromMosaic collectionName m count
  | Since, MoMosaic m => mosaicsSinceMosaic collectionName m count
  | From, MoId i => mosaicsFromId collectionName i count
  | Since, MoId i => mosaicsSinceId collectionName i count
  end.

(** *** The lookup an anchor needs

    [Some tt] when the anchor designates a document, [None] when it does
    not ([undefined]), with the queries of the lookup: no query for a
    keyword or a record, the raw lookup for a key. *)







End Cursors.

(** ** Anchor dispatch of the cursor routes

    Each route first reads its limit: the newer routes with
    [routeUtils.parseRangeArgument], which the sources do not define, the
    older [getNamespaces] of namespaceRoutes.js (290-321) with [getLimit].
    What follows for a valid limit is the dispatch on the anchor: the
    database method the route calls, by name, or how the route fails. *)

Module CursorRoutes.

Inductive Dispatch :=
| Method (name : string)             (* [db[name](...dbArgs)] *)
| Thrown (e : Parse.Exn)              (* a synchronous exception *)
| ReferenceError (name : string)      (* reading an undeclared variable *)
| InvalidArgument (message : string). (* [res.send(errors.createInvalidArgumentError(message))] *)

Definition durationName (duration : Cursors.Direction) : string :=
  match duration with Cursors.From => "From" | Cursors.Since => "Since" end.

(** [if (routeUtils.validateValue(value, validator)) then_ else else_];
    a validator that [namedValidatorMap] lacks throws. *)
Definition ifValid (value validator : string) (then_ else_ : Dispatch) : Dispatch :=
  match Parse.validateValue value validator with
  | Parse.Ok true => then_
  | Parse.Ok false => else_
  | Parse.Throw e => Thrown e
  end.


(** [getTransactions] of transactionRoutes.js (40-70). *)
Definition getTransactions (duration : Cursors.Direction) (transaction : string) : Dispatch :=
  let d := durationName duration in
  ifValid transaction "earliest" (Method ("transactions" ++ d ++ "Earliest"))
  (ifValid transaction "latest" (Method ("transactions" ++ d ++ "Latest"))
  (ifValid transaction "objectId" (Method ("transactions" ++ d ++ "Id"))
  (ifValid transaction "hash256" (Method ("transactions" ++ d ++ "Hash"))
  (InvalidArgument "transactionId has an invalid format")))).











End CursorRoutes.

(** [a] may precede [b] in a page sorted by [s]. *)
Definition sorted_by {D} (s : Mongo.SortSpec D) (a b : D) : Prop :=
  Mongo.cmp_spec s a b <> Gt.

(** Descending (height, index) order of transaction pages. *)
Definition tx_desc (a b : Transaction) : Prop :=
  tx_height b < tx_height a \/ (tx_height b = tx_height a /\ tx_index b <= tx_index a).

Definition within {D} (n : nat) (r : option (list D)) : Prop :=
  match r with Some l => (List.length l <= n)%nat | None => True end.




Lemma toArray_length {D} (coll : list D) (c : Mongo.FindCursor D) :
  (0 < Mongo.fc_limit c)%nat -> (List.length (Mongo.toArray coll c) <= Mongo.fc_limit c)%nat.
Proof.
  intros Hpos. unfold Mongo.toArray. rewrite length_map.
  destruct (Mongo.fc_limit c =? 0)%nat eqn:E.
  - apply Nat.eqb_eq in E. lia.
  - apply firstn_le_length.
Qed.

Lemma sortedTransactions_cap coll cond n st :
  (0 < n)%nat -> (List.length (fst (Tx.sortedTransactions coll cond n st)) <= n)%nat.
Proof.
  intros Hpos. unfold Tx.sortedTransactions. simpl fst. rewrite length_map.
  apply (toArray_length _ (Mongo.limit n _)). exact Hpos.
Qed.

Lemma sortedAccounts_cap coll addF sorting proj m n st :
  (List.length (fst (Acc.sortedAccounts coll addF sorting proj m n st)) <= n)%nat.
Proof.
  unfold Acc.sortedAccounts. simpl fst. rewrite length_map. apply firstn_le_length.
Qed.

Lemma sortedMosaics_cap coll cond asc n st :
  (0 < n)%nat -> (List.length (fst (Mos.sortedMosaics coll cond asc n st)) <= n)%nat.
Proof.
  intros Hpos. unfold Mos.sortedMosaics. simpl fst. rewrite length_map.
  apply (toArray_length _ (Mongo.sort _ (Mongo.limit n _))). exact Hpos.
Qed.

Section HelperFacts.
Context {A R K D : Type}.
Variable method : A -> nat -> M (list D).
Hypothesis method_cap : forall a n st, (0 < n)%nat -> (List.length (fst (method a n st)) <= n)%nat.


Lemma arrayFromRecord_cap (genArgs : R -> A) r n st :
  within n (fst (arrayFromRecord method genArgs r n st)).
Proof.
  unfold arrayFromRecord, arrayFromEmpty, ret, fmap, within.
  destruct r as [r|]; simpl; [|exact I].
  destruct (n =? 0)%nat eqn:E; simpl.
  - lia.
  - apply Nat.eqb_neq in E. destruct (method (genArgs r) n st) as [l q] eqn:Em. simpl.
    pose proof (method_cap (genArgs r) n st) as H. rewrite Em in H. apply H. lia.
Qed.

Lemma arrayFromId_cap (idMethod : K -> M (option R)) (genArgs : R -> A) k n st :
  within n (fst (arrayFromId idMethod (arrayFromRecord method genArgs) k n st)).
Proof.
  unfold arrayFromId, bind.
  destruct (idMethod k st) as [r q1].
  destruct (arrayFromRecord method genArgs r n st) as [res q2] eqn:E. simpl.
  pose proof (arrayFromRecord_cap genArgs r n st) as H. rewrite E in H. exact H.
Qed.

Lemma arrayFromAbsolute_zero g st : arrayFromAbsolute method g 0 st = (Some [], []).
Proof. reflexivity. Qed.

Lemma arrayFromId_zero (idMethod : K -> M (option R)) (genArgs : R -> A) k st :
  arrayFromId idMethod (arrayFromRecord method genArgs) k 0 st
  = (option_map (fun _ => []) (fst (idMethod k st)), snd (idMethod k st)).
Proof.
  unfold arrayFromId, bind. destruct (idMethod k st) as [[r|] q]; simpl;
    rewrite app_nil_r; reflexivity.
Qed.

End HelperFacts.

Lemma tx_from_cap coll a n st :
  (0 < n)%nat -> (List.length (fst (Tx.uncurry_from coll a n st)) <= n)%nat.
Proof. apply sortedTransactions_cap. Qed.

Lemma tx_since_cap coll a n st :
  (0 < n)%nat -> (List.length (fst (Tx.uncurry_since coll a n st)) <= n)%nat.
Proof. apply sortedTransactions_cap. Qed.

Lemma importance_from_cap coll a n st :
  (0 < n)%nat -> (List.length (fst (Acc.accountsByImportanceFrom coll a n st)) <= n)%nat.
Proof. intros _. destruct a as [[i h] d]. apply sortedAccounts_cap. Qed.

Lemma importance_since_cap coll a n st :
  (0 < n)%nat -> (List.length (fst (Acc.accountsByImportanceSince coll a n st)) <= n)%nat.
Proof. intros _. destruct a as [[i h] d]. apply sortedAccounts_cap. Qed.

Lemma currency_from_cap coll a n st :
  (0 < n)%nat -> (List.length (fst (Ns.accountsByCurrencyBalanceFrom coll a n st)) <= n)%nat.
Proof.
  intros _. destruct a as [[b h] d].
  unfold Ns.accountsByCurrencyBalanceFrom, Ns.sortedAccountsByCurrencyBalance, bind.
  destruct (Ns.networkCurrencyMosaic st) as [m q1].
  unfold Ns.sortedAccountsByMosaicBalance.
  pose proof (sortedAccounts_cap coll (Ns.addBalanceFields m) Ns.balanceSorting
                (Acc.projectAccount false false true)
                (Acc.accountMatchCondition "balance" Acc.OLt b h d) n st) as H.
  destruct (Acc.sortedAccounts _ _ _ _ _ n st). exact H.
Qed.

Lemma mosaics_from_cap coll a n st :
  (0 < n)%nat -> (List.length (fst (Mos.mosaicsFrom coll a n st)) <= n)%nat.
Proof. destruct a. apply sortedMosaics_cap. Qed.

Lemma mosaics_since_cap coll a n st :
  (0 < n)%nat -> (List.length (fst (Mos.mosaicsSince coll a n st)) <= n)%nat.
Proof. destruct a. apply sortedMosaics_cap. Qed.

Lemma sortedNamespaces_cap coll cond n st :
  (0 < n)%nat -> (List.length (fst (NsCursor.sortedNamespaces coll cond n st)) <= n)%nat.
Proof.
  intros Hpos. unfold NsCursor.sortedNamespaces. simpl fst. rewrite length_map.
  apply (toArray_length _ (Mongo.limit n _)). exact Hpos.
Qed.

Lemma byType_from_cap coll type a n st :
  (0 < n)%nat -> (List.length (fst (Cursors.byType_from coll type a n st)) <= n)%nat.
Proof. apply sortedTransactions_cap. Qed.

Lemma byType_since_cap coll type a n st :
  (0 < n)%nat -> (List.length (fst (Cursors.byType_since coll type a n st)) <= n)%nat.
Proof. apply sortedTransactions_cap. Qed.

Lemma harvestedBlocks_from_cap coll a n st :
  (0 < n)%nat -> (List.length (fst (Acc.accountsByHarvestedBlocksFrom coll a n st)) <= n)%nat.
Proof. intros _. destruct a as [[i h] d]. apply sortedAccounts_cap. Qed.

Lemma harvestedBlocks_since_cap coll a n st :
  (0 < n)%nat -> (List.length (fst (Acc.accountsByHarvestedBlocksSince coll a n st)) <= n)%nat.
Proof. intros _. destruct a as [[i h] d]. apply sortedAccounts_cap. Qed.

Lemma harvestedFees_from_cap coll a n st :
  (0 < n)%nat -> (List.length (fst (Acc.accountsByHarvestedFeesFrom coll a n st)) <= n)%nat.
Proof. intros _. destruct a as [[i h] d]. apply sortedAccounts_cap. Qed.

Lemma harvestedFees_since_cap coll a n st :
  (0 < n)%nat -> (List.length (fst (Acc.accountsByHarvestedFeesSince coll a n st)) <= n)%nat.
Proof. intros _. destruct a as [[i h] d]. apply sortedAccounts_cap. Qed.

Lemma mosaicBalance_bind_cap (mosaic : M (option Z)) coll match_ n st :
  (List.length (fst ((mosaicId <- mosaic ;;
      Ns.sortedAccountsByMosaicBalance coll mosaicId match_ n) st)) <= n)%nat.
Proof.
  unfold bind. destruct (mosaic st) as [m q1].
  unfold Ns.sortedAccountsByMosaicBalance.
  pose proof (sortedAccounts_cap coll (Ns.addBalanceFields m) Ns.balanceSorting
                (Acc.projectAccount false false true) match_ n st) as H.
  destruct (Acc.sortedAccounts _ _ _ _ _ n st). exact H.
Qed.

Lemma currency_since_cap coll a n st :
  (0 < n)%nat -> (List.length (fst (Ns.accountsByCurrencyBalanceSince coll a n st)) <= n)%nat.
Proof. intros _. destruct a as [[b h] d]. apply mosaicBalance_bind_cap. Qed.

Lemma harvestBalance_from_cap coll a n st :
  (0 < n)%nat -> (List.length (fst (Cursors.accountsByHarvestBalanceFrom coll a n st)) <= n)%nat.
Proof. intros _. destruct a as [[b h] d]. apply mosaicBalance_bind_cap. Qed.

Lemma harvestBalance_since_cap coll a n st :
  (0 < n)%nat -> (List.length (fst (Cursors.accountsByHarvestBalanceSince coll a n st)) <= n)%nat.
Proof. intros _. destruct a as [[b h] d]. apply mosaicBalance_bind_cap. Qed.

Lemma namespaces_from_cap coll a n st :
  (0 < n)%nat -> (List.length (fst (Cursors.namespacesFrom coll a n st)) <= n)%nat.
Proof. destruct a. apply sortedNamespaces_cap. Qed.

Lemma namespaces_since_cap coll a n st :
  (0 < n)%nat -> (List.length (fst (Cursors.namespacesSince coll a n st)) <= n)%nat.
Proof. destruct a. apply sortedNamespaces_cap. Qed.

Lemma cursor_mosaics_from_cap coll a n st :
  (0 < n)%nat -> (List.length (fst (Cursors.mosaicsFrom coll a n st)) <= n)%nat.
Proof. destruct a. apply sortedMosaics_cap. Qed.

Lemma cursor_mosaics_since_cap coll a n st :
  (0 < n)%nat -> (List.length (fst (Cursors.mosaicsSince coll a n st)) <= n)%nat.
Proof. destruct a. apply sortedMosaics_cap. Qed.

Create HintDb range_caps.
#[local] Hint Resolve tx_from_cap tx_since_cap byType_from_cap byType_since_cap
  importance_from_cap importance_since_cap harvestedBlocks_from_cap harvestedBlocks_since_cap
  harvestedFees_from_cap harvestedFees_since_cap currency_from_cap currency_since_cap
  harvestBalance_from_cap harvestBalance_since_cap namespaces_from_cap namespaces_since_cap
  mosaics_from_cap mosaics_since_cap cursor_mosaics_from_cap cursor_mosaics_since_cap
  : range_caps.







Lemma sortedTransactions_ext coll f g n st :
  (forall t, In t (transactions_of st coll) -> f t = g t) ->
  Tx.sortedTransactions coll f n st = Tx.sortedTransactions coll g n st.
Proof.
  intros H. unfold Tx.sortedTransactions, Mongo.toArray. simpl.
  rewrite (filter_ext_in f g _ H). reflexivity.
Qed.

Lemma maxLong_value : maxLong = 2 ^ 63 - 1.
Proof. vm_compute. reflexivity. Qed.

Lemma Long_add_one_no_wrap h : - 2 ^ 63 <= h < 2 ^ 63 - 1 -> Long.add h 1 = h + 1.
Proof.
  intros H. unfold Long.add, Long.toSigned64, Long.two63, Long.two64. cbv zeta.
  assert (E64 : (2 ^ 64 = 2 ^ 63 * 2)%Z) by reflexivity.
  destruct (Z_le_gt_dec 0 (h + 1)) as [Hp|Hn].
  - rewrite (Z.mod_small (h + 1) (2 ^ 64)) by lia.
    destruct (2 ^ 63 <=? h + 1) eqn:E; [apply Z.leb_le in E; lia | reflexivity].
  - rewrite <- (Z.mod_unique (h + 1) (2 ^ 64) (-1) (h + 1 + 2 ^ 64)) by lia.
    destruct (2 ^ 63 <=? h + 1 + 2 ^ 64) eqn:E; [lia | apply Z.leb_gt in E; lia].
Qed.

(** ** Claims *)

(** C1. Claimed: [since(anchor, n)] for a resolved account anchor only
    returns documents above the anchor in the sort order.  In the source
    [accountsByImportanceSinceAccount] (like the harvested and balance
    variants) calls the [From] method, so [since] from the account of
    importance 2 returns the account of importance 1. *)
Theorem accountsByImportanceSince_returns_lower :
  option_map acc_importance
    (fst (Acc.rawAccountWithImportanceByAddress "accounts" 22 Fixtures.accountsByRank))
    = Some (Some 2)
  /\ exists d,
       fst (Acc.accountsByImportanceSinceAddress "accounts" 22 10 Fixtures.accountsByRank)
         = Some [d]
       /\ acc_importance d = Some 1.
Proof.
  split; [reflexivity|].
  eexists. split; reflexivity.
Qed.

(** C2. Claimed: [since(earliest, n)] returns the [n] lowest documents.
    The mosaic cursor sorts ascending, limits, then sorts descending; the
    driver keeps only the last [sort], so [since(earliest, 1)] over start
    heights 1, 2, 3 returns the mosaic of start height 3. *)
Theorem mosaicsSinceEarliest_returns_highest :
  fst (Mos.mosaicsSinceEarliest "mosaics" 1 Fixtures.threeMosaics)
    = Some [mkMosaic None 9 3]
  /\ In (mkMosaic (Some 1) 7 1) (mosaics_of Fixtures.threeMosaics "mosaics").
Proof. split; [reflexivity | left; reflexivity]. Qed.

(** C3. Claimed: the harvested-blocks and harvested-fees cursors read the
    anchor's primary component from its harvested-blocks count or fees
    sum.  The [FromAccount] methods read [account.importance]: the
    account with 3 buckets (fees 60) and no importance gets primary 0,
    and [from] it returns nothing although the other account has 1 block
    and fees 5. *)
Theorem harvestedCursors_anchor_reads_importance :
  option_map Acc.importanceGenArgs
    (fst (Acc.rawAccountWithHarvestedBlocksByAddress "accounts" 11 Fixtures.accountsHarvesting))
    = Some (Some 0, Some 1, Some 1)
  /\ Acc.addFieldHarvestedBlocks (Fixtures.account 1 11 1 [] [10; 20; 30] []) = Some 3
  /\ fst (Acc.accountsByHarvestedBlocksFromAddress "accounts" 11 10 Fixtures.accountsHarvesting)
       = Some []
  /\ option_map Acc.importanceGenArgs
       (fst (Acc.rawAccountWithHarvestedFeesByAddress "accounts" 11 Fixtures.accountsHarvesting))
       = Some (Some 0, Some 1, Some 1)
  /\ Acc.addFieldHarvestedFees (Fixtures.account 1 11 1 [] [10; 20; 30] []) = Some 60
  /\ fst (Acc.accountsByHarvestedFeesFromAddress "accounts" 11 10 Fixtures.accountsHarvesting)
       = Some [].
Proof. repeat split. Qed.

(** C4. Claimed: both the page query and the anchor resolution of the
    currency-balance cursor use the currency mosaic.  The anchor
    resolution reads the harvest namespace's mosaic: with currency mosaic
    100 and harvest mosaic 200, an account holding 50 of mosaic 100 and
    7 of mosaic 200 resolves to balance 7. *)
Theorem currencyBalance_anchor_uses_harvest_mosaic :
  fst (Ns.networkCurrencyMosaic Fixtures.accountsWithBalances) = Some 100
  /\ fst (Ns.networkHarvestMosaic Fixtures.accountsWithBalances) = Some 200
  /\ option_map acc_balance
       (fst (Ns.rawAccountWithCurrencyBalanceByAddress "accounts" 11 Fixtures.accountsWithBalances))
       = Some (Some 7)
  /\ Ns.addFieldMosaicBalance (Some 100) (Fixtures.account 1 11 1 [] [] [(100, 50); (200, 7)])
       = Some 50.
Proof. repeat split. Qed.

(** C5. Claimed: any other document is in exactly one of [from(d)] and
    [since(d)].  For the importance cursor, with two accounts of equal
    importance the other account is in neither (the tie-break reads
    [meta.publicKeyHeight], absent from account documents); with
    importances 1 and 2 the lower account is in both ([since] calls the
    [From] method). *)
Theorem importanceCursor_not_total :
  fst (Acc.accountsByImportanceFromAddress "accounts" 22 10 Fixtures.accountsTied) = Some []
  /\ fst (Acc.accountsByImportanceSinceAddress "accounts" 22 10 Fixtures.accountsTied) = Some []
  /\ exists d,
       fst (Acc.accountsByImportanceFromAddress "accounts" 22 10 Fixtures.accountsByRank) = Some [d]
       /\ fst (Acc.accountsByImportanceSinceAddress "accounts" 22 10 Fixtures.accountsByRank)
            = Some [d]
       /\ acc_address d = 11.
Proof.
  split; [reflexivity|]. split; [reflexivity|].
  eexists. split; [reflexivity|]. split; reflexivity.
Qed.



(** C7. Claimed: an unknown natural key or opaque id yields a not-found
    result that the route turns into a 404.  The engine answers
    [undefined] and the route adaptor calls [map] on it: the request is
    rejected with a [TypeError] and no 404 is sent. *)
Theorem getTransactions_unknown_hash_rejects :
  fst (Tx.transactionsFromHash "transactions" (hex_value Fixtures.unknownHash) 10
         Fixtures.someTransactions) = None
  /\ Routes.getTransactions Routes.From "transactions" Fixtures.unknownHash 10
       Fixtures.someTransactions
     = Routes.Rejected "TypeError: Cannot read property 'map' of undefined"
  /\ Routes.getTransactions Routes.From "transactions" Fixtures.unknownHash 10
       Fixtures.someTransactions <> Routes.NotFound.
Proof. vm_compute. split; [reflexivity|]. split; [reflexivity | discriminate]. Qed.

(** C8. Claimed: [minLong] is [-2^63].  [new Long(0, 0)] is 0; [maxLong]
    is [2^63 - 1] and the two ObjectId sentinels are twelve zero bytes
    and twelve [0xFF] bytes, as claimed. *)
Theorem storage_sentinel_values :
  minLong = 0
  /\ minLong <> - 2 ^ 63
  /\ maxLong = 2 ^ 63 - 1
  /\ oid_bytes minObjectId = repeat 0 12
  /\ oid_bytes maxObjectId = repeat 255 12.
Proof. vm_compute. repeat split; discriminate. Qed.

Lemma fromCondition_maxLong_legacy coll h t :
  coll <> "partialTransactions" ->
  - 2 ^ 63 <= h < maxLong ->
  tx_height t <= h ->
  Tx.fromCondition coll maxLong 0 t = LegacyTx.condition (Long.add h 1) 0 t.
Proof.
  intros Hc Hh Ht. rewrite maxLong_value in *.
  rewrite Long_add_one_no_wrap by lia.
  unfold Tx.fromCondition, LegacyTx.condition, Tx.isAggregate.
  apply String.eqb_neq in Hc. rewrite Hc.
  assert (E1 : (tx_height t <? 2 ^ 63 - 1) = true) by (apply Z.ltb_lt; lia).
  assert (E2 : (tx_height t <? h + 1) = true) by (apply Z.ltb_lt; lia).
  rewrite E1, E2, !orb_true_r.
  destruct (Tx.exists_field (tx_aggregateId t)); reflexivity.
Qed.

(** C9 (claim as stated fails). On [partialTransactions] the two
    implementations differ, although every confirmed transaction lies at
    or below the chain height: the newer one keeps the documents carrying
    [meta.aggregateId], the older one excludes them. *)
Lemma transactionsFromLatest_partial_differs :
  (forall t, In t (transactions_of Fixtures.someTransactions "transactions")
     \/ In t (transactions_of Fixtures.someTransactions "partialTransactions") ->
     tx_height t <= chainStatistic_height Fixtures.someTransactions)
  /\ (exists d, fst (Tx.transactionsFromLatest "partialTransactions" 10
                     Fixtures.someTransactions) = Some [d]
               /\ tx_aggregateId d = Some 5)
  /\ fst (LegacyTx.transactionsFromLatest "partialTransactions" 10
          Fixtures.someTransactions) = []
  /\ fst (Tx.transactionsFromLatest "partialTransactions" 10 Fixtures.someTransactions)
     <> Some (fst (LegacyTx.transactionsFromLatest "partialTransactions" 10
                    Fixtures.someTransactions)).
Proof.
  split.
  - intros t [Ht|Ht]; simpl in Ht;
      repeat (destruct Ht as [<-|Ht]; [simpl; lia|]); destruct Ht.
  - split; [eexists; split; reflexivity|]. split; [reflexivity | discriminate].
Qed.

(** C9 (amended). On every collection other than [partialTransactions],
    when the chain height is a Long below [maxLong] and no document of
    the collection lies above it, the two implementations return the
    same sequence for every count. *)
Theorem transactionsFromLatest_agrees_with_legacy st coll n :
  coll <> "partialTransactions" ->
  - 2 ^ 63 <= chainStatistic_height st < maxLong ->
  (forall t, In t (transactions_of st coll) -> tx_height t <= chainStatistic_height st) ->
  fst (Tx.transactionsFromLatest coll n st)
  = Some (fst (LegacyTx.transactionsFromLatest coll n st)).
Proof.
  intros Hc Hh Ht.
  unfold Tx.transactionsFromLatest, LegacyTx.transactionsFromLatest, arrayFromAbsolute.
  destruct (n =? 0)%nat eqn:En; [reflexivity|].
  change (Tx.uncurry_from coll (maxLong, 0) n)
    with (Tx.sortedTransactions coll (Tx.fromCondition coll maxLong 0) n).
  unfold fmap, bind, LegacyTx.chainStatisticHeight,
    LegacyTx.transactionsFromHeightAndIndex.
  rewrite En. cbv beta iota zeta.
  rewrite (sortedTransactions_ext coll (Tx.fromCondition coll maxLong 0)
             (LegacyTx.condition (Long.add (chainStatistic_height st) 1) 0)).
  - destruct (Tx.sortedTransactions _ _ n st). reflexivity.
  - intros t Hin. apply fromCondition_maxLong_legacy; auto.
Qed.

Lemma transactionsFromLatest_agrees_with_legacy_witness :
  fst (Tx.transactionsFromLatest "transactions" 5 Fixtures.someTransactions)
  = Some (fst (LegacyTx.transactionsFromLatest "transactions" 5 Fixtures.someTransactions)).
Proof.
  apply transactionsFromLatest_agrees_with_legacy.
  - discriminate.
  - vm_compute. split; [discriminate | reflexivity].
  - intros t Ht. simpl in Ht.
    repeat (destruct Ht as [<-|Ht]; [simpl; lia|]). destruct Ht.
Defined.



(** ** Further properties of the code *)

(** *** The find cursor: what [toArray] returns *)

Lemma cmp_opt_antisym a b : Mongo.cmp_opt b a = CompOpp (Mongo.cmp_opt a b).
Proof.
  destruct a as [x|], b as [y|]; simpl; auto. apply Z.compare_antisym.
Qed.

Lemma cmp_spec_antisym {D} (s : Mongo.SortSpec D) a b :
  Mongo.cmp_spec s b a = CompOpp (Mongo.cmp_spec s a b).
Proof.
  induction s as [|[f d] r IH]; simpl; [reflexivity|].
  destruct d.
  - rewrite (cmp_opt_antisym (f a) (f b)).
    destruct (Mongo.cmp_opt (f a) (f b)); simpl; auto.
  - rewrite (cmp_opt_antisym (f b) (f a)).
    destruct (Mongo.cmp_opt (f b) (f a)); simpl; auto.
Qed.

Lemma In_insert_sorted {D} (s : Mongo.SortSpec D) x l a :
  In a (Mongo.insert_sorted s x l) <-> a = x \/ In a l.
Proof.
  induction l as [|y r IH]; simpl; [intuition congruence|].
  destruct (Mongo.cmp_spec s x y); simpl; [intuition congruence | intuition congruence|].
  rewrite IH. intuition congruence.
Qed.

Lemma In_sort_docs {D} (s : Mongo.SortSpec D) l a :
  In a (Mongo.sort_docs s l) <-> In a l.
Proof.
  induction l as [|y r IH]; simpl; [tauto|].
  rewrite In_insert_sorted, IH. intuition congruence.
Qed.

Lemma insert_sorted_sorted {D} (s : Mongo.SortSpec D) x l :
  Sorted (sorted_by s) l -> Sorted (sorted_by s) (Mongo.insert_sorted s x l).
Proof.
  unfold sorted_by.
  induction l as [|y r IH]; intros H; simpl.
  - repeat constructor.
  - destruct (Mongo.cmp_spec s x y) eqn:E.
    + constructor; [exact H|]. constructor. rewrite E. discriminate.
    + constructor; [exact H|]. constructor. rewrite E. discriminate.
    + apply Sorted_inv in H as [Hr Hy]. constructor; [apply IH, Hr|].
      destruct r as [|z r']; simpl.
      * constructor. rewrite cmp_spec_antisym, E. discriminate.
      * destruct (Mongo.cmp_spec s x z); constructor;
          try (rewrite cmp_spec_antisym, E; discriminate).
        inversion Hy; assumption.
Qed.

Lemma sort_docs_sorted {D} (s : Mongo.SortSpec D) l :
  Sorted (sorted_by s) (Mongo.sort_docs s l).
Proof.
  induction l as [|y r IH]; simpl; [constructor|].
  apply insert_sorted_sorted, IH.
Qed.

Lemma Sorted_firstn {A} (R : A -> A -> Prop) n l :
  Sorted R l -> Sorted R (firstn n l).
Proof.
  revert n. induction l as [|a r IH]; intros n H; destruct n as [|n]; simpl;
    [constructor | constructor | constructor |].
  apply Sorted_inv in H as [Hr Ha]. constructor; [apply IH, Hr|].
  destruct r as [|b r']; destruct n; simpl; constructor. inversion Ha; assumption.
Qed.

Lemma Sorted_map {A B} (R : A -> A -> Prop) (R' : B -> B -> Prop) (f : A -> B) l :
  (forall a b, R a b -> R' (f a) (f b)) -> Sorted R l -> Sorted R' (map f l).
Proof.
  intros HR. induction l as [|a r IH]; intros H; simpl; [constructor|].
  apply Sorted_inv in H as [Hr Ha]. constructor; [apply IH, Hr|].
  destruct r as [|b r']; simpl; constructor. apply HR. inversion Ha; assumption.
Qed.

Lemma In_firstn_in {A} n (l : list A) a : In a (firstn n l) -> In a l.
Proof.
  intros H. rewrite <- (firstn_skipn n l). apply in_or_app. left. exact H.
Qed.

Lemma In_toArray {D} (coll : list D) (c : Mongo.FindCursor D) d :
  In d (Mongo.toArray coll c) ->
  exists d0, In d0 coll /\ Mongo.fc_filter c d0 = true /\ d = Mongo.fc_project c d0.
Proof.
  unfold Mongo.toArray. simpl. intros H. apply in_map_iff in H as [d0 [<- H]].
  assert (H' : In d0 (Mongo.sort_docs (Mongo.fc_sort c) (filter (Mongo.fc_filter c) coll))).
  { destruct (Mongo.fc_limit c =? 0)%nat; [exact H | eapply In_firstn_in; exact H]. }
  apply In_sort_docs, filter_In in H' as [H1 H2]. eauto.
Qed.

(** The documents of a page come in the order of the cursor's sort,
    read through the projection. *)
Lemma toArray_sorted {D} (coll : list D) (c : Mongo.FindCursor D) (R : D -> D -> Prop) :
  (forall a b, sorted_by (Mongo.fc_sort c) a b -> R (Mongo.fc_project c a) (Mongo.fc_project c b)) ->
  Sorted R (Mongo.toArray coll c).
Proof.
  intros HR. unfold Mongo.toArray. simpl. apply (Sorted_map (sorted_by (Mongo.fc_sort c))); [exact HR|].
  destruct (Mongo.fc_limit c =? 0)%nat; [|apply Sorted_firstn]; apply sort_docs_sorted.
Qed.

(** *** Transaction cursor pages *)

Lemma fromCondition_true coll height index t :
  Tx.fromCondition coll height index t = true ->
  Tx.exists_field (tx_aggregateId t) = Tx.isAggregate coll
  /\ (tx_height t < height \/ (tx_height t = height /\ tx_index t < index)).
Proof.
  unfold Tx.fromCondition. intros H.
  apply andb_prop in H as [H1 H2]. apply Bool.eqb_prop in H1. split; [exact H1|].
  apply orb_prop in H2 as [H2|H2].
  - apply andb_prop in H2 as [H3 H4]. apply Z.eqb_eq in H3. apply Z.ltb_lt in H4. lia.
  - apply Z.ltb_lt in H2. lia.
Qed.

Lemma sinceCondition_true coll height index t :
  Tx.sinceCondition coll height index t = true ->
  Tx.exists_field (tx_aggregateId t) = Tx.isAggregate coll
  /\ (height < tx_height t \/ (tx_height t = height /\ index < tx_index t)).
Proof.
  unfold Tx.sinceCondition. intros H.
  apply andb_prop in H as [H1 H2]. apply Bool.eqb_prop in H1. split; [exact H1|].
  apply orb_prop in H2 as [H2|H2].
  - apply andb_prop in H2 as [H3 H4]. apply Z.eqb_eq in H3. apply Z.ltb_lt in H4. lia.
  - apply Z.ltb_lt in H2. lia.
Qed.

Lemma In_sortedTransactions coll cond n st d :
  In d (fst (Tx.sortedTransactions coll cond n st)) ->
  exists t, In t (transactions_of st coll) /\ cond t = true
            /\ d = Tx.copyAndDeleteId (Tx.hideAddresses t).
Proof.
  unfold Tx.sortedTransactions. simpl. intros H.
  apply in_map_iff in H as [x [<- H]].
  apply In_toArray in H as [t [Ht [Hc ->]]]. eauto.
Qed.

(** X1: a [transactionsFrom(collectionName, height, index, count)] page
    holds only documents of the collection strictly below the anchor
    (height, index), with [meta.addresses] hidden and [_id] moved to
    [meta.id]; on [partialTransactions] they carry [meta.aggregateId],
    elsewhere they do not. *)
Theorem transactionsFrom_page_below_anchor coll height index n st d :
  In d (fst (Tx.transactionsFrom coll height index n st)) ->
  exists t, In t (transactions_of st coll)
    /\ d = Tx.copyAndDeleteId (Tx.hideAddresses t)
    /\ (tx_height t < height \/ (tx_height t = height /\ tx_index t < index))
    /\ Tx.exists_field (tx_aggregateId t) = Tx.isAggregate coll.
Proof.
  unfold Tx.transactionsFrom. intros H.
  apply In_sortedTransactions in H as [t [Ht [Hc ->]]].
  apply fromCondition_true in Hc as [Ha Hr]. exists t. auto.
Qed.

Lemma transactionsFrom_page_below_anchor_witness :
  exists t, In t (transactions_of Fixtures.someTransactions "transactions")
    /\ Tx.copyAndDeleteId (Tx.hideAddresses (Fixtures.tx 1 0 None))
       = Tx.copyAndDeleteId (Tx.hideAddresses t)
    /\ (tx_height t < 2 \/ (tx_height t = 2 /\ tx_index t < 1))
    /\ Tx.exists_field (tx_aggregateId t) = Tx.isAggregate "transactions".
Proof.
  apply (transactionsFrom_page_below_anchor "transactions" 2 1 10 Fixtures.someTransactions).
  vm_compute. left. reflexivity.
Defined.

(** X2: a [transactionsSince(collectionName, height, index, count)] page
    holds only documents of the collection strictly above the anchor
    (height, index), sanitized the same way. *)
Theorem transactionsSince_page_above_anchor coll height index n st d :
  In d (fst (Tx.transactionsSince coll height index n st)) ->
  exists t, In t (transactions_of st coll)
    /\ d = Tx.copyAndDeleteId (Tx.hideAddresses t)
    /\ (height < tx_height t \/ (tx_height t = height /\ index < tx_index t))
    /\ Tx.exists_field (tx_aggregateId t) = Tx.isAggregate coll.
Proof.
  unfold Tx.transactionsSince. intros H.
  apply In_sortedTransactions in H as [t [Ht [Hc ->]]].
  apply sinceCondition_true in Hc as [Ha Hr]. exists t. auto.
Qed.

Lemma transactionsSince_page_above_anchor_witness :
  exists t, In t (transactions_of Fixtures.someTransactions "transactions")
    /\ Tx.copyAndDeleteId (Tx.hideAddresses (Fixtures.tx 2 1 None))
       = Tx.copyAndDeleteId (Tx.hideAddresses t)
    /\ (1 < tx_height t \/ (tx_height t = 1 /\ 0 < tx_index t))
    /\ Tx.exists_field (tx_aggregateId t) = Tx.isAggregate "transactions".
Proof.
  apply (transactionsSince_page_above_anchor "transactions" 1 0 10 Fixtures.someTransactions).
  vm_compute. left. reflexivity.
Defined.

(** X3: every transaction page ([sortedTransactions], behind both
    [transactionsFrom] and [transactionsSince]) is in descending
    (height, index) order. *)
Theorem sortedTransactions_descending coll cond n st :
  Sorted tx_desc (fst (Tx.sortedTransactions coll cond n st)).
Proof.
  unfold Tx.sortedTransactions. simpl fst.
  apply (Sorted_map tx_desc); [intros a b H; exact H|].
  apply toArray_sorted. simpl. intros a b H. unfold sorted_by in H. simpl in H.
  unfold tx_desc. simpl.
  destruct (Z.compare_spec (tx_height b) (tx_height a)) as [E|E|E]; [|lia|congruence].
  destruct (Z.compare_spec (tx_index b) (tx_index a)); [lia|lia|congruence].
Qed.

(** *** Mosaic and namespace cursor pages *)

(** A page member: its source document, and which clause of the range
    condition [(key = h && id cmp anchor) || key cmp h] it met. *)
Ltac page_member In_lemma field :=
  intros d H; apply In_lemma in H as [m [Hm [Hc ->]]];
  exists m; split; [exact Hm|]; split; [reflexivity|];
  apply orb_prop in Hc as [Hc|Hc];
  [ apply andb_prop in Hc as [H1 H2]; apply Z.eqb_eq in H1; right; split; [exact H1|];
    unfold Acc.cmp in H2; destruct (field m) as [i|]; [|discriminate];
    exists i; split; [reflexivity | apply Z.ltb_lt; exact H2]
  | left; apply Z.ltb_lt; exact Hc ].

Lemma In_sortedMosaics coll cond asc n st d :
  In d (fst (Mos.sortedMosaics coll cond asc n st)) ->
  exists m, In m (mosaics_of st coll) /\ cond m = true /\ d = Mos.deleteId m.
Proof.
  unfold Mos.sortedMosaics. simpl. intros H.
  apply in_map_iff in H as [x [<- H]].
  apply In_toArray in H as [m [Hm [Hc ->]]]. eauto.
Qed.

Lemma sortedMosaics_descending coll cond asc n st :
  Sorted (fun a b => mo_startHeight b <= mo_startHeight a)
    (fst (Mos.sortedMosaics coll cond asc n st)).
Proof.
  unfold Mos.sortedMosaics. simpl fst.
  apply (Sorted_map (fun a b => mo_startHeight b <= mo_startHeight a)); [intros a b H; exact H|].
  apply toArray_sorted. simpl. intros a b H. unfold sorted_by in H. simpl in H.
  destruct (Z.compare_spec (mo_startHeight b) (mo_startHeight a)); [lia|lia|congruence].
Qed.

(** X4: a mosaic page [mosaicsFrom(collectionName, height, id, count)]
    holds only mosaics of the collection strictly below the anchor
    (startHeight, _id), a [mosaicsSince] page only mosaics strictly
    above it; both come in descending start-height order and without
    [_id]. *)
Theorem mosaics_pages_relative_to_anchor coll h id n st :
  (forall d, In d (fst (Mos.mosaicsFrom coll (h, id) n st)) ->
     exists m, In m (mosaics_of st coll) /\ d = Mos.deleteId m
       /\ (mo_startHeight m < h
           \/ (mo_startHeight m = h /\ exists i, mo__id m = Some i /\ i < id)))
  /\ (forall d, In d (fst (Mos.mosaicsSince coll (h, id) n st)) ->
     exists m, In m (mosaics_of st coll) /\ d = Mos.deleteId m
       /\ (h < mo_startHeight m
           \/ (mo_startHeight m = h /\ exists i, mo__id m = Some i /\ id < i)))
  /\ Sorted (fun a b => mo_startHeight b <= mo_startHeight a)
       (fst (Mos.mosaicsFrom coll (h, id) n st))
  /\ Sorted (fun a b => mo_startHeight b <= mo_startHeight a)
       (fst (Mos.mosaicsSince coll (h, id) n st)).
Proof.
  unfold Mos.mosaicsFrom, Mos.mosaicsSince.
  split; [|split; [|split]].
  - page_member In_sortedMosaics mo__id.
  - page_member In_sortedMosaics mo__id.
  - apply sortedMosaics_descending.
  - apply sortedMosaics_descending.
Qed.

Lemma In_sortedNamespaces coll cond n st d :
  In d (fst (NsCursor.sortedNamespaces coll cond n st)) ->
  exists m, In m (namespaces_of st coll) /\ cond m = true /\ d = NsCursor.copyAndDeleteId m.
Proof.
  unfold NsCursor.sortedNamespaces. simpl. intros H.
  apply in_map_iff in H as [x [<- H]].
  apply In_toArray in H as [m [Hm [Hc ->]]]. eauto.
Qed.

(** Descending (startHeight, id) order of namespace pages; the id has
    moved to [meta.id]. *)
Lemma sortedNamespaces_descending coll cond n st :
  Sorted (fun a b => ns_startHeight b < ns_startHeight a
                     \/ (ns_startHeight b = ns_startHeight a
                         /\ Mongo.cmp_opt (ns_meta_id b) (ns_meta_id a) <> Gt))
    (fst (NsCursor.sortedNamespaces coll cond n st)).
Proof.
  unfold NsCursor.sortedNamespaces. simpl fst.
  apply (Sorted_map (sorted_by NsCursor.sorting)).
  - intros a b H. unfold sorted_by in H. simpl in *.
    destruct (Z.compare_spec (ns_startHeight b) (ns_startHeight a)); [|lia|congruence].
    right. split; [lia|]. destruct (Mongo.cmp_opt (ns__id b) (ns__id a)); congruence.
  - apply toArray_sorted. intros a b H. exact H.
Qed.

(** X5: a namespace page [namespacesFrom(collectionName, height, id,
    count)] holds only namespaces strictly below the anchor
    (startHeight, _id), a [namespacesSince] page only namespaces strictly
    above it; the [_id] is moved to [meta.id], and both pages come in
    descending (startHeight, id) order. *)
Theorem namespaces_pages_relative_to_anchor coll h id n st :
  (forall d, In d (fst (NsCursor.namespacesFrom coll h id n st)) ->
     exists m, In m (namespaces_of st coll) /\ d = NsCursor.copyAndDeleteId m
       /\ (ns_startHeight m < h
           \/ (ns_startHeight m = h /\ exists i, ns__id m = Some i /\ i < id)))
  /\ (forall d, In d (fst (NsCursor.namespacesSince coll h id n st)) ->
     exists m, In m (namespaces_of st coll) /\ d = NsCursor.copyAndDeleteId m
       /\ (h < ns_startHeight m
           \/ (ns_startHeight m = h /\ exists i, ns__id m = Some i /\ id < i)))
  /\ Sorted (fun a b => ns_startHeight b < ns_startHeight a
                     \/ (ns_startHeight b = ns_startHeight a
                         /\ Mongo.cmp_opt (ns_meta_id b) (ns_meta_id a) <> Gt))
       (fst (NsCursor.namespacesFrom coll h id n st))
  /\ Sorted (fun a b => ns_startHeight b < ns_startHeight a
                     \/ (ns_startHeight b = ns_startHeight a
                         /\ Mongo.cmp_opt (ns_meta_id b) (ns_meta_id a) <> Gt))
       (fst (NsCursor.namespacesSince coll h id n st)).
Proof.
  unfold NsCursor.namespacesFrom, NsCursor.namespacesSince.
  split; [|split; [|split]].
  - page_member In_sortedNamespaces ns__id.
  - page_member In_sortedNamespaces ns__id.
  - apply sortedNamespaces_descending.
  - apply sortedNamespaces_descending.
Qed.

(** *** Block cursor pages *)

Lemma toSigned64_small x : - 2 ^ 63 <= x < 2 ^ 63 -> Long.toSigned64 x = x.
Proof.
  intros H. unfold Long.toSigned64, Long.two63, Long.two64. cbv zeta.
  assert (E64 : (2 ^ 64 = 2 ^ 63 * 2)%Z) by reflexivity.
  destruct (Z_le_gt_dec 0 x) as [Hp|Hn].
  - rewrite (Z.mod_small x (2 ^ 64)) by lia.
    destruct (2 ^ 63 <=? x) eqn:E; [apply Z.leb_le in E; lia | reflexivity].
  - rewrite <- (Z.mod_unique x (2 ^ 64) (-1) (x + 2 ^ 64)) by lia.
    destruct (2 ^ 63 <=? x + 2 ^ 64) eqn:E; [lia | apply Z.leb_gt in E; lia].
Qed.

Lemma sortedBlocks_facts coll cond n bs :
  ((0 < n)%nat -> (List.length (fst (Blocks.sortedBlocks coll cond n bs)) <= n)%nat)
  /\ Sorted (fun a b => Blocks.blk_height b <= Blocks.blk_height a)
       (fst (Blocks.sortedBlocks coll cond n bs))
  /\ (forall b, In b (fst (Blocks.sortedBlocks coll cond n bs)) ->
        exists b0, In b0 (Blocks.blocks_of bs coll) /\ cond b0 = true
                   /\ b = Blocks.deleteId (Blocks.hideMerkleTrees b0)).
Proof.
  unfold Blocks.sortedBlocks. simpl fst. split; [|split].
  - intros Hn. rewrite length_map. apply (toArray_length _ (Mongo.limit n _)). exact Hn.
  - apply (Sorted_map (fun a b => Blocks.blk_height b <= Blocks.blk_height a));
      [intros a b H; exact H|].
    apply toArray_sorted. simpl. intros a b H. unfold sorted_by in H. simpl in H.
    destruct (Z.compare_spec (Blocks.blk_height b) (Blocks.blk_height a)); [lia|lia|congruence].
  - intros b H. apply in_map_iff in H as [x [<- H]].
    apply In_toArray in H as [b0 [Hb [Hc ->]]]. eauto.
Qed.

Lemma blocksFromHeight_eq coll h n bs :
  n <> 0%nat ->
  fst (Blocks.blocksFromHeight coll h n bs)
  = fst (Blocks.sortedBlocks coll
           (Blocks.fromCondition (fst (Blocks.calculateFromHeight h (Blocks.bs_chainHeight bs) (Z.of_nat n)))
                                 (snd (Blocks.calculateFromHeight h (Blocks.bs_chainHeight bs) (Z.of_nat n))))
           n bs).
Proof.
  intros Hn. unfold Blocks.blocksFromHeight. apply Nat.eqb_neq in Hn. rewrite Hn.
  unfold Blocks.chainStatisticCurrent.
  destruct (Blocks.calculateFromHeight h (Blocks.bs_chainHeight bs) (Z.of_nat n)) as [s e].
  simpl fst. simpl snd.
  destruct (Blocks.sortedBlocks coll (Blocks.fromCondition s e) n bs). reflexivity.
Qed.

Lemma blocksSinceHeight_eq coll h n bs :
  n <> 0%nat ->
  fst (Blocks.blocksSinceHeight coll h n bs)
  = fst (Blocks.sortedBlocks coll
           (Blocks.sinceCondition (fst (Blocks.calculateSinceHeight h (Blocks.bs_chainHeight bs) (Z.of_nat n)))
                                  (snd (Blocks.calculateSinceHeight h (Blocks.bs_chainHeight bs) (Z.of_nat n))))
           n bs).
Proof.
  intros Hn. unfold Blocks.blocksSinceHeight. apply Nat.eqb_neq in Hn. rewrite Hn.
  unfold Blocks.chainStatisticCurrent.
  destruct (Blocks.calculateSinceHeight h (Blocks.bs_chainHeight bs) (Z.of_nat n)) as [s e].
  simpl fst. simpl snd.
  destruct (Blocks.sortedBlocks coll (Blocks.sinceCondition s e) n bs). reflexivity.
Qed.

Lemma calculateFromHeight_bounds h c k :
  0 <= c < 2 ^ 63 - 1 -> 0 < k ->
  1 <= fst (Blocks.calculateFromHeight h c k)
  /\ snd (Blocks.calculateFromHeight h c k) - k <= fst (Blocks.calculateFromHeight h c k)
  /\ snd (Blocks.calculateFromHeight h c k) = Z.min h (c + 1).
Proof.
  intros Hc Hk. unfold Blocks.calculateFromHeight. cbv zeta.
  rewrite Long_add_one_no_wrap by lia.
  destruct (c <? h) eqn:E1; [apply Z.ltb_lt in E1 | apply Z.ltb_ge in E1].
  - destruct (k <? c + 1) eqn:E2; simpl;
      [apply Z.ltb_lt in E2; unfold Blocks.subtract; rewrite toSigned64_small by lia
      | apply Z.ltb_ge in E2]; lia.
  - destruct (k <? h) eqn:E2; simpl;
      [apply Z.ltb_lt in E2; unfold Blocks.subtract; rewrite toSigned64_small by lia
      | apply Z.ltb_ge in E2]; lia.
Qed.

Lemma calculateSinceHeight_bounds h c k :
  0 <= c -> c + 1 + k < 2 ^ 63 -> - 2 ^ 63 <= h -> 0 < k ->
  fst (Blocks.calculateSinceHeight h c k) = Z.min h (c + 1)
  /\ snd (Blocks.calculateSinceHeight h c k) = Z.min h (c + 1) + k.
Proof.
  intros Hc Hck Hh Hk. unfold Blocks.calculateSinceHeight. cbv zeta.
  rewrite Long_add_one_no_wrap by lia.
  destruct (c <? h) eqn:E1; [apply Z.ltb_lt in E1 | apply Z.ltb_ge in E1]; simpl;
    unfold Long.add; rewrite toSigned64_small by lia; lia.
Qed.

(** X6: a [blocksFromHeight(collectionName, height, count)] page holds at
    most [count] blocks, in descending height order, without [_id] or
    Merkle trees, whose heights lie in [[max(1, e - count), e)] with
    [e = min(height, chainHeight + 1)]: below the anchor, at most the
    chain height. *)
Theorem blocksFromHeight_page coll h n bs :
  0 <= Blocks.bs_chainHeight bs < maxLong ->
  (List.length (fst (Blocks.blocksFromHeight coll h n bs)) <= n)%nat
  /\ Sorted (fun a b => Blocks.blk_height b <= Blocks.blk_height a)
       (fst (Blocks.blocksFromHeight coll h n bs))
  /\ (forall b, In b (fst (Blocks.blocksFromHeight coll h n bs)) ->
        1 <= Blocks.blk_height b
        /\ Z.min h (Blocks.bs_chainHeight bs + 1) - Z.of_nat n <= Blocks.blk_height b
        /\ Blocks.blk_height b < Z.min h (Blocks.bs_chainHeight bs + 1)
        /\ Blocks.blk__id b = None
        /\ Blocks.blk_transactionMerkleTree b = None
        /\ Blocks.blk_statementMerkleTree b = None).
Proof.
  intros Hc. rewrite maxLong_value in Hc.
  destruct (Nat.eq_dec n 0) as [->|Hn].
  - simpl. split; [lia|]. split; [constructor|]. intros b [].
  - rewrite (blocksFromHeight_eq coll h n bs Hn).
    destruct (sortedBlocks_facts coll
                (Blocks.fromCondition (fst (Blocks.calculateFromHeight h (Blocks.bs_chainHeight bs) (Z.of_nat n)))
                                      (snd (Blocks.calculateFromHeight h (Blocks.bs_chainHeight bs) (Z.of_nat n))))
                n bs) as [Hl [Hs Hm]].
    split; [apply Hl; lia|]. split; [exact Hs|].
    intros b Hb. apply Hm in Hb as [b0 [_ [Hcond ->]]].
    destruct (calculateFromHeight_bounds h (Blocks.bs_chainHeight bs) (Z.of_nat n)) as [H1 [H2 H3]];
      [lia | lia |].
    unfold Blocks.fromCondition in Hcond. apply andb_prop in Hcond as [Hlo Hhi].
    apply Z.leb_le in Hlo. apply Z.ltb_lt in Hhi.
    cbn [Blocks.deleteId Blocks.hideMerkleTrees Blocks.blk_height Blocks.blk__id
         Blocks.blk_transactionMerkleTree Blocks.blk_statementMerkleTree].
    rewrite <- H3. repeat split; try reflexivity; lia.
Qed.

Lemma blocksFromHeight_page_witness :
  (List.length (fst (Blocks.blocksFromHeight "blocks" 3 1
      (Blocks.mkBlockStore (fun _ => [Blocks.mkBlock (Some 1%Z) 1%Z None None;
                                      Blocks.mkBlock (Some 2%Z) 2%Z None None]) 2%Z))) <= 1)%nat
  /\ Sorted (fun a b => Blocks.blk_height b <= Blocks.blk_height a)
       (fst (Blocks.blocksFromHeight "blocks" 3 1
          (Blocks.mkBlockStore (fun _ => [Blocks.mkBlock (Some 1%Z) 1%Z None None;
                                          Blocks.mkBlock (Some 2%Z) 2%Z None None]) 2%Z)))
  /\ (forall b, In b (fst (Blocks.blocksFromHeight "blocks" 3 1
          (Blocks.mkBlockStore (fun _ => [Blocks.mkBlock (Some 1%Z) 1%Z None None;
                                          Blocks.mkBlock (Some 2%Z) 2%Z None None]) 2%Z))) ->
        1 <= Blocks.blk_height b
        /\ Z.min 3 (2 + 1) - Z.of_nat 1 <= Blocks.blk_height b
        /\ Blocks.blk_height b < Z.min 3 (2 + 1)
        /\ Blocks.blk__id b = None
        /\ Blocks.blk_transactionMerkleTree b = None
        /\ Blocks.blk_statementMerkleTree b = None).
Proof.
  apply blocksFromHeight_page. vm_compute. split; [discriminate | reflexivity].
Defined.

(** X7: a [blocksSinceHeight(collectionName, height, count)] page holds
    at most [count] blocks, in descending height order, without [_id] or
    Merkle trees, whose heights lie in [(s, s + count]] with
    [s = min(height, chainHeight + 1)]: above the anchor. *)
Theorem blocksSinceHeight_page coll h n bs :
  0 <= Blocks.bs_chainHeight bs ->
  Blocks.bs_chainHeight bs + 1 + Z.of_nat n < 2 ^ 63 ->
  - 2 ^ 63 <= h ->
  (List.length (fst (Blocks.blocksSinceHeight coll h n bs)) <= n)%nat
  /\ Sorted (fun a b => Blocks.blk_height b <= Blocks.blk_height a)
       (fst (Blocks.blocksSinceHeight coll h n bs))
  /\ (forall b, In b (fst (Blocks.blocksSinceHeight coll h n bs)) ->
        Z.min h (Blocks.bs_chainHeight bs + 1) < Blocks.blk_height b
        /\ Blocks.blk_height b <= Z.min h (Blocks.bs_chainHeight bs + 1) + Z.of_nat n
        /\ Blocks.blk__id b = None
        /\ Blocks.blk_transactionMerkleTree b = None
        /\ Blocks.blk_statementMerkleTree b = None).
Proof.
  intros Hc Hck Hh.
  destruct (Nat.eq_dec n 0) as [->|Hn].
  - simpl. split; [lia|]. split; [constructor|]. intros b [].
  - rewrite (blocksSinceHeight_eq coll h n bs Hn).
    destruct (sortedBlocks_facts coll
                (Blocks.sinceCondition (fst (Blocks.calculateSinceHeight h (Blocks.bs_chainHeight bs) (Z.of_nat n)))
                                       (snd (Blocks.calculateSinceHeight h (Blocks.bs_chainHeight bs) (Z.of_nat n))))
                n bs) as [Hl [Hs Hm]].
    split; [apply Hl; lia|]. split; [exact Hs|].
    intros b Hb. apply Hm in Hb as [b0 [_ [Hcond ->]]].
    destruct (calculateSinceHeight_bounds h (Blocks.bs_chainHeight bs) (Z.of_nat n)) as [H1 H2];
      [lia | lia | lia | lia |].
    unfold Blocks.sinceCondition in Hcond. apply andb_prop in Hcond as [Hlo Hhi].
    apply Z.ltb_lt in Hlo. apply Z.leb_le in Hhi.
    cbn [Blocks.deleteId Blocks.hideMerkleTrees Blocks.blk_height Blocks.blk__id
         Blocks.blk_transactionMerkleTree Blocks.blk_statementMerkleTree].
    rewrite H1, H2 in *. repeat split; try reflexivity; lia.
Qed.

Lemma blocksSinceHeight_page_witness :
  (List.length (fst (Blocks.blocksSinceHeight "blocks" 1 1
      (Blocks.mkBlockStore (fun _ => [Blocks.mkBlock (Some 1%Z) 1%Z None None;
                                      Blocks.mkBlock (Some 2%Z) 2%Z None None]) 2%Z))) <= 1)%nat
  /\ Sorted (fun a b => Blocks.blk_height b <= Blocks.blk_height a)
       (fst (Blocks.blocksSinceHeight "blocks" 1 1
          (Blocks.mkBlockStore (fun _ => [Blocks.mkBlock (Some 1%Z) 1%Z None None;
                                          Blocks.mkBlock (Some 2%Z) 2%Z None None]) 2%Z)))
  /\ (forall b, In b (fst (Blocks.blocksSinceHeight "blocks" 1 1
          (Blocks.mkBlockStore (fun _ => [Blocks.mkBlock (Some 1%Z) 1%Z None None;
                                          Blocks.mkBlock (Some 2%Z) 2%Z None None]) 2%Z))) ->
        Z.min 1 (2 + 1) < Blocks.blk_height b
        /\ Blocks.blk_height b <= Z.min 1 (2 + 1) + Z.of_nat 1
        /\ Blocks.blk__id b = None
        /\ Blocks.blk_transactionMerkleTree b = None
        /\ Blocks.blk_statementMerkleTree b = None).
Proof.
  apply blocksSinceHeight_page; simpl; lia.
Defined.

Lemma blocksFrom_eq h n bs :
  n <> 0%nat ->
  fst (Blocks.blocksFrom h n bs)
  = map Blocks.deleteId
      (Mongo.toArray (Blocks.blocks_of bs "blocks")
         (Mongo.sort Blocks.sorting (Mongo.project Blocks.hideMerkleTrees
            (Mongo.find (Blocks.fromCondition
               (fst (fst (Blocks.buildBlocksFromOptions h (Z.of_nat n) (Blocks.bs_chainHeight bs))))
               (snd (fst (Blocks.buildBlocksFromOptions h (Z.of_nat n) (Blocks.bs_chainHeight bs))))))))).
Proof.
  intros Hn. unfold Blocks.blocksFrom. apply Nat.eqb_neq in Hn. rewrite Hn.
  unfold Blocks.chainStatisticCurrent.
  destruct (Blocks.buildBlocksFromOptions h (Z.of_nat n) (Blocks.bs_chainHeight bs)) as [[s e] k].
  reflexivity.
Qed.

Lemma buildBlocksFromOptions_bounds h k c :
  0 <= c < 2 ^ 63 - 1 -> 0 < k < 2 ^ 63 -> - 2 ^ 63 <= h -> h + k < 2 ^ 63 ->
  fst (fst (Blocks.buildBlocksFromOptions h k c)) = (if h =? 0 then c - k + 1 else h)
  /\ snd (fst (Blocks.buildBlocksFromOptions h k c))
     = Z.min ((if h =? 0 then c - k + 1 else h) + k) (c + 1).
Proof.
  intros Hc Hk Hh Hhk. unfold Blocks.buildBlocksFromOptions. cbv zeta.
  assert (Hs : (if h =? 0 then Long.add (Blocks.subtract c k) 1 else h)
               = (if h =? 0 then c - k + 1 else h)).
  { destruct (h =? 0); [|reflexivity].
    unfold Blocks.subtract, Long.add. rewrite (toSigned64_small (c - k)) by lia.
    rewrite toSigned64_small by lia. reflexivity. }
  rewrite Hs. rewrite (Long_add_one_no_wrap c) by lia.
  assert (Hsk : Long.add (if h =? 0 then c - k + 1 else h) k
                = (if h =? 0 then c - k + 1 else h) + k).
  { unfold Long.add. apply toSigned64_small. destruct (h =? 0); lia. }
  rewrite Hsk. simpl. split; [reflexivity|].
  destruct (_ <? c + 1) eqn:E; [apply Z.ltb_lt in E | apply Z.ltb_ge in E]; lia.
Qed.

(** X8: a [blocksFrom(height, numBlocks)] page, in descending height
    order and without [_id] or Merkle trees, holds only blocks of heights
    in [[s, s + numBlocks)] that do not exceed the chain height, where
    [s] is [height], or [chainHeight - numBlocks + 1] when [height] is 0. *)
Theorem blocksFrom_page h n bs :
  0 <= Blocks.bs_chainHeight bs < maxLong ->
  Z.of_nat n < 2 ^ 63 -> - 2 ^ 63 <= h -> h + Z.of_nat n < 2 ^ 63 ->
  Sorted (fun a b => Blocks.blk_height b <= Blocks.blk_height a) (fst (Blocks.blocksFrom h n bs))
  /\ (forall b, In b (fst (Blocks.blocksFrom h n bs)) ->
        (if h =? 0 then Blocks.bs_chainHeight bs - Z.of_nat n + 1 else h) <= Blocks.blk_height b
        /\ Blocks.blk_height b < (if h =? 0 then Blocks.bs_chainHeight bs - Z.of_nat n + 1 else h) + Z.of_nat n
        /\ Blocks.blk_height b <= Blocks.bs_chainHeight bs
        /\ Blocks.blk__id b = None
        /\ Blocks.blk_transactionMerkleTree b = None
        /\ Blocks.blk_statementMerkleTree b = None).
Proof.
  intros Hc Hn' Hh Hhn. rewrite maxLong_value in Hc.
  destruct (Nat.eq_dec n 0) as [->|Hn].
  - simpl. split; [constructor|]. intros b [].
  - rewrite (blocksFrom_eq h n bs Hn).
    destruct (buildBlocksFromOptions_bounds h (Z.of_nat n) (Blocks.bs_chainHeight bs))
      as [H1 H2]; [lia | lia | lia | lia |].
    rewrite H1, H2. split.
    + apply (Sorted_map (fun a b => Blocks.blk_height b <= Blocks.blk_height a));
        [intros a b H; exact H|].
      apply toArray_sorted. simpl. intros a b H. unfold sorted_by in H. simpl in H.
      destruct (Z.compare_spec (Blocks.blk_height b) (Blocks.blk_height a)); [lia|lia|congruence].
    + intros b Hb. apply in_map_iff in Hb as [x [<- Hb]].
      apply In_toArray in Hb as [b0 [_ [Hcond ->]]].
      cbv [Mongo.sort Mongo.project Mongo.find Mongo.fc_filter Mongo.fc_project] in Hcond |- *.
      unfold Blocks.fromCondition in Hcond. apply andb_prop in Hcond as [Hlo Hhi].
      apply Z.leb_le in Hlo. apply Z.ltb_lt in Hhi.
      cbn [Blocks.deleteId Blocks.hideMerkleTrees Blocks.blk_height Blocks.blk__id
           Blocks.blk_transactionMerkleTree Blocks.blk_statementMerkleTree].
      repeat split; try reflexivity; lia.
Qed.

Lemma blocksFrom_page_witness :
  Sorted (fun a b => Blocks.blk_height b <= Blocks.blk_height a)
    (fst (Blocks.blocksFrom 0 2
       (Blocks.mkBlockStore (fun _ => [Blocks.mkBlock (Some 1%Z) 1%Z None None;
                                       Blocks.mkBlock (Some 2%Z) 2%Z None None]) 2%Z)))
  /\ (forall b, In b (fst (Blocks.blocksFrom 0 2
          (Blocks.mkBlockStore (fun _ => [Blocks.mkBlock (Some 1%Z) 1%Z None None;
                                          Blocks.mkBlock (Some 2%Z) 2%Z None None]) 2%Z))) ->
        (if 0 =? 0 then 2 - Z.of_nat 2 + 1 else 0) <= Blocks.blk_height b
        /\ Blocks.blk_height b < (if 0 =? 0 then 2 - Z.of_nat 2 + 1 else 0) + Z.of_nat 2
        /\ Blocks.blk_height b <= 2
        /\ Blocks.blk__id b = None
        /\ Blocks.blk_transactionMerkleTree b = None
        /\ Blocks.blk_statementMerkleTree b = None).
Proof.
  apply blocksFrom_page; [vm_compute; split; [discriminate | reflexivity] | simpl; lia | simpl; lia | simpl; lia].
Defined.

(** *** Paged document queries *)

(** X9: with bounds [1 <= pageSizeMin <= pageSizeMax], a
    [queryPagedDocuments] page holds at most [pageSizeMax] documents
    whatever the requested page size; they are the projections of
    documents that meet the conditions, ordered by [_id] in the sort order
    ([options.sortOrder || -1]), and an id anchor keeps only documents
    strictly past it in that order. *)
Theorem queryPagedDocuments_page b coll conds id ps so proj st :
  1 <= Paged.pageSizeMin b <= Paged.pageSizeMax b ->
  (forall t, tx__id (proj t) = tx__id t) ->
  (List.length (fst (Paged.queryPagedDocuments b coll conds id ps so proj st))
     <= Z.to_nat (Paged.pageSizeMax b))%nat
  /\ Sorted (fun x y => if 0 <? Paged.orDefault so (-1)
                        then Mongo.cmp_opt (tx__id x) (tx__id y) <> Gt
                        else Mongo.cmp_opt (tx__id y) (tx__id x) <> Gt)
       (fst (Paged.queryPagedDocuments b coll conds id ps so proj st))
  /\ (forall d, In d (fst (Paged.queryPagedDocuments b coll conds id ps so proj st)) ->
        exists t, In t (transactions_of st coll) /\ conds t = true /\ d = proj t
          /\ match id with
             | Some i => exists x, tx__id t = Some x
                                   /\ (if 0 <? Paged.orDefault so (-1) then i < x else x < i)
             | None => True
             end).
Proof.
  intros Hb Hproj. unfold Paged.queryPagedDocuments. simpl fst. split; [|split].
  - eapply Nat.le_trans; [apply toArray_length; simpl; unfold Paged.boundPageSize; lia|].
    simpl. unfold Paged.boundPageSize. lia.
  - apply toArray_sorted. simpl. intros x y H. unfold sorted_by in H. simpl in H.
    rewrite !Hproj.
    destruct (0 <? Paged.orDefault so (-1)).
    + destruct (Mongo.cmp_opt (tx__id x) (tx__id y)); congruence.
    + destruct (Mongo.cmp_opt (tx__id y) (tx__id x)); congruence.
  - intros d Hd. apply In_toArray in Hd as [t [Hin [Hc ->]]]. simpl in Hc |- *.
    apply andb_prop in Hc as [Hc Hid]. exists t. split; [exact Hin|].
    split; [exact Hc|]. split; [reflexivity|].
    destruct id as [i|]; [|exact I].
    unfold Acc.cmp in Hid. destruct (tx__id t) as [x|]; [|discriminate].
    exists x. split; [reflexivity|].
    destruct (0 <? Paged.orDefault so (-1)); apply Z.ltb_lt in Hid; exact Hid.
Qed.

Lemma queryPagedDocuments_page_witness :
  (List.length (fst (Paged.queryPagedDocuments (Paged.bounds_of None None) "transactions"
      (fun _ => true) (Some 5%Z) 1000%Z None (fun t => t) Fixtures.someTransactions))
     <= Z.to_nat (Paged.pageSizeMax (Paged.bounds_of None None)))%nat
  /\ Sorted (fun x y => if 0 <? Paged.orDefault None (-1)
                        then Mongo.cmp_opt (tx__id x) (tx__id y) <> Gt
                        else Mongo.cmp_opt (tx__id y) (tx__id x) <> Gt)
       (fst (Paged.queryPagedDocuments (Paged.bounds_of None None) "transactions"
          (fun _ => true) (Some 5%Z) 1000%Z None (fun t => t) Fixtures.someTransactions))
  /\ (forall d, In d (fst (Paged.queryPagedDocuments (Paged.bounds_of None None) "transactions"
          (fun _ => true) (Some 5%Z) 1000%Z None (fun t => t) Fixtures.someTransactions)) ->
        exists t, In t (transactions_of Fixtures.someTransactions "transactions")
          /\ true = true /\ d = t
          /\ (exists x, tx__id t = Some x
                        /\ (if 0 <? Paged.orDefault None (-1) then 5 < x else x < 5))).
Proof.
  apply (queryPagedDocuments_page (Paged.bounds_of None None) "transactions" (fun _ => true)
           (Some 5%Z) 1000%Z None (fun t => t) Fixtures.someTransactions);
    [vm_compute; split; discriminate | reflexivity].
Defined.

(** *** Argument parsers and the [/transaction] routes *)

Section ParseProps.
Variable hexToUint8 : string -> Parse.Result (list Z).
Variable tryParseUint : string -> option Z.
Variable stringToAddress : string -> Parse.Result (list Z).

Lemma callValidator_objectId s :
  Parse.callValidator "objectId" s
  = Parse.Ok ((Parse.hexObjectId =? String.length s)%nat && isHexString s).
Proof. reflexivity. Qed.

Lemma callValidator_hash256 s :
  Parse.callValidator "hash256" s = Parse.Ok (Parse.hexHash256 =? String.length s)%nat.
Proof. reflexivity. Qed.

Lemma callValidator_publicKey s :
  Parse.callValidator "publicKey" s = Parse.Ok (Parse.hexPublicKey =? String.length s)%nat.
Proof. reflexivity. Qed.

Lemma callValidator_address s :
  Parse.callValidator "address" s = Parse.Ok (Parse.addressEncoded =? String.length s)%nat.
Proof. reflexivity. Qed.

Lemma parseValue_objectId s :
  Parse.parseValue hexToUint8 tryParseUint stringToAddress s (Parse.Named "objectId")
  = Parse.bindR (Parse.callValidator "objectId" s) (fun ok =>
      if ok then Parse.Ok (Parse.VString s) else Parse.Throw (Parse.Error "must be 12-byte hex string")).
Proof. reflexivity. Qed.

Lemma parseValue_hash256 s :
  Parse.parseValue hexToUint8 tryParseUint stringToAddress s (Parse.Named "hash256")
  = Parse.bindR (Parse.callValidator "hash256" s) (fun ok =>
      if ok then Parse.rmap Parse.VBytes (hexToUint8 s)
      else Parse.Throw (Parse.Error (Parse.lengthMsg "hash256" s))).
Proof. reflexivity. Qed.

(** The id step of [transactionIdParser], once the homogeneity check
    has passed. *)
Lemma transactionIdParser_body x idx arr :
  (match idx with Some i => (0 <? i)%nat | None => false end
   && negb (String.length (nth 0 arr "") =? String.length x)%nat) = false ->
  Parse.transactionIdParser hexToUint8 tryParseUint stringToAddress x idx arr
  = if (24 =? String.length x)%nat && isHexString x then Parse.Ok (Parse.VString x)
    else if (64 =? String.length x)%nat then Parse.rmap Parse.VBytes (hexToUint8 x)
    else Parse.Throw (Parse.Error ("invalid length of transaction id '" ++ x ++ "'")).
Proof.
  intros Hc. unfold Parse.transactionIdParser. rewrite Hc.
  unfold Parse.validateValue. rewrite callValidator_objectId. cbn [Parse.bindR].
  unfold Parse.hexObjectId.
  destruct ((24 =? String.length x)%nat && isHexString x) eqn:E1.
  - rewrite parseValue_objectId, callValidator_objectId. unfold Parse.hexObjectId.
    rewrite E1. reflexivity.
  - rewrite callValidator_hash256. cbn [Parse.bindR]. unfold Parse.hexHash256.
    destruct (64 =? String.length x)%nat eqn:E2; [|reflexivity].
    rewrite parseValue_hash256, callValidator_hash256. unfold Parse.hexHash256.
    rewrite E2. reflexivity.
Qed.

Lemma transactionIdParser_ok x idx arr v :
  Parse.transactionIdParser hexToUint8 tryParseUint stringToAddress x idx arr = Parse.Ok v ->
  (String.length x = 24%nat /\ v = Parse.VString x)
  \/ (String.length x = 64%nat /\ exists b, v = Parse.VBytes b).
Proof.
  intros H.
  destruct (match idx with Some i => (0 <? i)%nat | None => false end
            && negb (String.length (nth 0 arr "") =? String.length x)%nat) eqn:Hc.
  - unfold Parse.transactionIdParser in H. rewrite Hc in H. discriminate.
  - rewrite (transactionIdParser_body x idx arr Hc) in H.
    destruct ((24 =? String.length x)%nat && isHexString x) eqn:E1.
    + apply andb_prop in E1 as [E1 _]. apply Nat.eqb_eq in E1.
      injection H as <-. left. auto.
    + destruct (64 =? String.length x)%nat eqn:E2; [|discriminate].
      apply Nat.eqb_eq in E2. right. split; [auto|].
      destruct (hexToUint8 x) as [b|e]; [|discriminate].
      injection H as <-. eauto.
Qed.

Lemma transactionIdParser_homogeneous x i arr v :
  (0 < i)%nat ->
  Parse.transactionIdParser hexToUint8 tryParseUint stringToAddress x (Some i) arr = Parse.Ok v ->
  String.length x = String.length (nth 0 arr "").
Proof.
  intros Hi H. unfold Parse.transactionIdParser in H.
  apply Nat.ltb_lt in Hi. rewrite Hi in H. simpl in H.
  destruct (String.length (nth 0 arr "") =? String.length x)%nat eqn:E.
  - apply Nat.eqb_eq in E. auto.
  - discriminate.
Qed.

Lemma mapIndexed_ok f arr i l vs :
  Parse.mapIndexed f arr i l = Parse.Ok vs ->
  List.length vs = List.length l
  /\ forall k x v, nth_error l k = Some x -> nth_error vs k = Some v ->
       f x (Some (i + k)%nat) arr = Parse.Ok v.
Proof.
  revert i vs. induction l as [|y r IH]; intros i vs H; simpl in H.
  - injection H as <-. split; [reflexivity|]. intros k x v Hx. destruct k; discriminate.
  - destruct (f y (Some i) arr) as [v0|e] eqn:Ef; [|discriminate]. simpl in H.
    destruct (Parse.mapIndexed f arr (S i) r) as [vs0|e] eqn:Em; [|discriminate].
    simpl in H. injection H as <-. destruct (IH (S i) vs0 Em) as [Hl Hn].
    split; [simpl; lia|].
    intros [|k] x v Hx Hv; simpl in Hx, Hv.
    + injection Hx as <-. injection Hv as <-. rewrite Nat.add_0_r. exact Ef.
    + rewrite <- Nat.add_succ_comm. exact (Hn k x v Hx Hv).
Qed.

End ParseProps.

Lemma mapIndexed_transactionIdParser h t s arr keys :
  Parse.mapIndexed (Parse.transactionIdParser h t s) arr 0 arr = Parse.Ok keys ->
  List.length keys = List.length arr
  /\ forall k x v, nth_error arr k = Some x -> nth_error keys k = Some v ->
       String.length x = String.length (nth 0 arr "")
       /\ ((String.length x = 24%nat /\ v = Parse.VString x)
           \/ (String.length x = 64%nat /\ exists b, v = Parse.VBytes b)).
Proof.
  intros Hm. destruct (mapIndexed_ok _ _ _ _ _ Hm) as [Hl Hn].
  split; [exact Hl|]. intros k x v Hx Hv. specialize (Hn k x v Hx Hv). simpl in Hn.
  split; [|exact (transactionIdParser_ok h t s _ _ _ _ Hn)].
  destruct k as [|k].
  - destruct arr as [|a r]; [discriminate|]. simpl in Hx |- *. injection Hx as ->. reflexivity.
  - apply (transactionIdParser_homogeneous h t s _ (S k) _ v); [lia | exact Hn].
Qed.

Lemma nth_error_same_length {A B} (l1 : list A) (l2 : list B) k x :
  List.length l1 = List.length l2 -> nth_error l1 k = Some x -> exists y, nth_error l2 k = Some y.
Proof.
  intros Hl Hx. destruct (nth_error l2 k) as [y|] eqn:E; [eauto|].
  apply nth_error_None in E. assert (nth_error l1 k <> None) as Hn by congruence.
  apply nth_error_Some in Hn. lia.
Qed.

(** X10: when the POST [/transaction] route gets past parsing, the ids
    were an array, every id has the length of the first, and either all
    are 24-character object ids, parsed to strings and looked up with
    [transactionsByIds], or all are 64-character hashes, parsed to bytes
    and looked up with [transactionsByHashes]. *)
Theorem postTransactions_homogeneous {D} h t s (byIds byHashes : list Parse.Value -> list D)
    params idText o keys :
  DocRoutes.postTransactions h t s byIds byHashes params idText = (o, Some keys) ->
  exists arr, params "transactionIds" = Some arr /\ List.length keys = List.length arr
    /\ (((forall x, In x arr -> String.length x = 24%nat)
         /\ (forall v, In v keys -> exists x, v = Parse.VString x)
         /\ (arr <> [] -> o = @DocRoutes.Responded D (Sender.PayloadArray (byIds keys))))
        \/ ((forall x, In x arr -> String.length x = 64%nat)
            /\ (forall v, In v keys -> exists b, v = Parse.VBytes b)
            /\ o = @DocRoutes.Responded D (Sender.PayloadArray (byHashes keys)))).
Proof.
  intros H. unfold DocRoutes.postTransactions, DocRoutes.postRoute in H.
  destruct (Parse.parseArgumentAsArray h t s params "transactionIds" _) as [ks|e] eqn:Ep;
    [|discriminate].
  injection H as Ho Hk. subst ks.
  unfold Parse.parseArgumentAsArray in Ep.
  destruct (params "transactionIds") as [arr|] eqn:Ea; [|discriminate].
  destruct (Parse.mapIndexed _ arr 0 arr) as [vs|e] eqn:Em; [|discriminate].
  injection Ep as ->.
  destruct (mapIndexed_transactionIdParser h t s arr keys Em) as [Hl Hel].
  exists arr. split; [reflexivity|]. split; [exact Hl|].
  assert (Hall : forall x, In x arr -> String.length x = String.length (nth 0 arr "")).
  { intros x Hx. apply In_nth_error in Hx as [k Hk].
    destruct (nth_error_same_length arr keys k x (eq_sym Hl) Hk) as [v Hv].
    exact (proj1 (Hel k x v Hk Hv)). }
  assert (Hkeys : forall v, In v keys -> exists x, In x arr
            /\ ((String.length x = 24%nat /\ v = Parse.VString x)
                \/ (String.length x = 64%nat /\ exists b, v = Parse.VBytes b))).
  { intros v Hv. apply In_nth_error in Hv as [k Hk].
    destruct (nth_error_same_length keys arr k v Hl Hk) as [x Hx].
    exists x. split; [exact (nth_error_In _ _ Hx)|]. exact (proj2 (Hel k x v Hx Hk)). }
  destruct arr as [|x0 r].
  - destruct keys; [|discriminate]. right. split; [intros x []|]. split; [intros v []|].
    rewrite <- Ho. reflexivity.
  - destruct keys as [|v0 ks]; [discriminate|].
    destruct (Hel 0%nat x0 v0 eq_refl eq_refl) as [_ [[H24 ->]|[H64 [b0 ->]]]].
    + left. split; [intros x Hx; rewrite (Hall x Hx); exact H24|].
      split; [|intros _; rewrite <- Ho; reflexivity].
      intros v Hv. destruct (Hkeys v Hv) as [x [Hx [[_ ->]|[H64 _]]]]; [eauto|].
      rewrite (Hall x Hx) in H64. simpl in H64. congruence.
    + right. split; [intros x Hx; rewrite (Hall x Hx); exact H64|].
      split; [|rewrite <- Ho; reflexivity].
      intros v Hv. destruct (Hkeys v Hv) as [x [Hx [[H24 _]|[_ Hb]]]]; [|exact Hb].
      rewrite (Hall x Hx) in H24. simpl in H24. congruence.
Qed.

Lemma postTransactions_homogeneous_witness :
  exists arr, Some [Fixtures.someObjectIdHex; Fixtures.someObjectIdHex] = Some arr
    /\ List.length [Parse.VString Fixtures.someObjectIdHex; Parse.VString Fixtures.someObjectIdHex]
       = List.length arr
    /\ (((forall x, In x arr -> String.length x = 24%nat)
         /\ (forall v, In v [Parse.VString Fixtures.someObjectIdHex;
                             Parse.VString Fixtures.someObjectIdHex] -> exists x, v = Parse.VString x)
         /\ (arr <> [] -> @DocRoutes.Responded Z (Sender.PayloadArray [1%Z])
                          = @DocRoutes.Responded Z (Sender.PayloadArray [1%Z])))
        \/ ((forall x, In x arr -> String.length x = 64%nat)
            /\ (forall v, In v [Parse.VString Fixtures.someObjectIdHex;
                                Parse.VString Fixtures.someObjectIdHex] -> exists b, v = Parse.VBytes b)
            /\ @DocRoutes.Responded Z (Sender.PayloadArray [1%Z])
               = @DocRoutes.Responded Z (Sender.PayloadArray []))).
Proof.
  apply (postTransactions_homogeneous (fun _ => Parse.Ok []) (fun _ => None) (fun _ => Parse.Ok [])
           (fun _ => [1%Z]) (fun _ => []) (fun _ => Some [Fixtures.someObjectIdHex; Fixtures.someObjectIdHex])
           "ids").
  vm_compute. reflexivity.
Defined.

(** X11: the GET [/transaction/:transactionId] route looks a 24-hex id up
    with [transactionsByIds] and a 64-character hash with
    [transactionsByHashes], answering with [sendOne]; any other id,
    including a 24-character id that is not hex, is rejected with
    ["invalid length of transaction id"] before any lookup. *)
Theorem getTransaction_dispatch {D} h t s (byIds byHashes : list Parse.Value -> list D) params :
  ((24 =? String.length (params "transactionId"))%nat && isHexString (params "transactionId") = true ->
   DocRoutes.getTransaction h t s byIds byHashes params
   = (@DocRoutes.Responded D (Sender.sendOne (params "transactionId")
        (Sender.RArray (byIds [Parse.VString (params "transactionId")]))),
      Some [Parse.VString (params "transactionId")]))
  /\ (forall b, String.length (params "transactionId") = 64%nat -> h (params "transactionId") = Parse.Ok b ->
      DocRoutes.getTransaction h t s byIds byHashes params
      = (@DocRoutes.Responded D (Sender.sendOne (params "transactionId")
           (Sender.RArray (byHashes [Parse.VBytes b]))),
         Some [Parse.VBytes b]))
  /\ (forall e, String.length (params "transactionId") = 64%nat -> h (params "transactionId") = Parse.Throw e ->
      DocRoutes.getTransaction h t s byIds byHashes params
      = (@DocRoutes.Thrown D (Parse.InvalidArgumentErrorWith ("transactionId" ++ " has an invalid format") e),
         None))
  /\ ((24 =? String.length (params "transactionId"))%nat && isHexString (params "transactionId") = false ->
      String.length (params "transactionId") <> 64%nat ->
      DocRoutes.getTransaction h t s byIds byHashes params
      = (@DocRoutes.Thrown D (Parse.InvalidArgumentErrorWith ("transactionId" ++ " has an invalid format")
           (Parse.Error ("invalid length of transaction id '" ++ params "transactionId" ++ "'"))),
         None)).
Proof.
  unfold DocRoutes.getTransaction, DocRoutes.getRoute, Parse.parseArgument, Parse.parseValue,
    DocRoutes.transactionIdParser.
  rewrite (transactionIdParser_body h t s (params "transactionId") None [] eq_refl).
  split; [|split; [|split]].
  - intros E. rewrite E. reflexivity.
  - intros b Hl Hb. rewrite Hl, Hb. reflexivity.
  - intros e Hl He. rewrite Hl, He. reflexivity.
  - intros E Hl. rewrite E. apply Nat.eqb_neq in Hl. rewrite Nat.eqb_sym in Hl. rewrite Hl.
    reflexivity.
Qed.

(** X12: the named parser [hash512] always throws: it calls the validator
    [namedValidatorMap.has512], which does not exist, so
    [parseArgument(args, key, 'hash512')] fails for every argument. *)
Theorem parseArgument_hash512_throws h t s args key :
  Parse.parseArgument h t s args key (Parse.Named "hash512")
  = Parse.Throw (Parse.InvalidArgumentErrorWith (key ++ " has an invalid format")
                   (Parse.TypeError "namedValidatorMap.has512 is not a function")).
Proof. reflexivity. Qed.

(** X13: the named parser [accountId] reads a 64-character string as a
    public key (through [hexToUint8]) and a 40-character string as an
    address (through [stringToAddress]); any other length throws
    ["invalid length of account id"]. *)
Theorem parseValue_accountId h t s str :
  (String.length str = 64%nat ->
   Parse.parseValue h t s str (Parse.Named "accountId") = Parse.rmap (Parse.VAccountId "publicKey") (h str))
  /\ (String.length str = 40%nat ->
      Parse.parseValue h t s str (Parse.Named "accountId") = Parse.rmap (Parse.VAccountId "address") (s str))
  /\ (String.length str <> 64%nat -> String.length str <> 40%nat ->
      Parse.parseValue h t s str (Parse.Named "accountId")
      = Parse.Throw (Parse.Error (Parse.lengthMsg "account id" str))).
Proof.
  assert (Hpv : Parse.parseValue h t s str (Parse.Named "accountId")
    = Parse.bindR (Parse.callValidator "publicKey" str) (fun pk =>
      if pk then Parse.rmap (Parse.VAccountId "publicKey") (h str) else
      Parse.bindR (Parse.callValidator "address" str) (fun ad =>
      if ad then Parse.rmap (Parse.VAccountId "address") (s str)
      else Parse.Throw (Parse.Error (Parse.lengthMsg "account id" str))))) by reflexivity.
  rewrite Hpv, callValidator_publicKey, callValidator_address. cbn [Parse.bindR].
  unfold Parse.hexPublicKey, Parse.addressEncoded.
  split; [|split].
  - intros Hl. rewrite Hl. reflexivity.
  - intros Hl. rewrite Hl. reflexivity.
  - intros H64 H40. apply Nat.eqb_neq in H64, H40. rewrite Nat.eqb_sym in H64, H40.
    rewrite H64, H40. reflexivity.
Qed.

(** X14: when [parsePagingArguments(args)] succeeds, the id is set exactly
    when [args.id] is a non-empty string, and then it is that string and a
    valid object id; the page size is 0 exactly when [args.pageSize] is
    absent or empty, and otherwise it is the value [tryParseUint] gives
    for it. *)
Theorem parsePagingArguments_ok t args o :
  Parse.parsePagingArguments t args = Parse.Ok o ->
  (Parse.po_id o = None <-> (args "id" = None \/ args "id" = Some ""))
  /\ (forall i, Parse.po_id o = Some i -> args "id" = Some i /\ Routes.validate_objectId i = true)
  /\ (Parse.po_pageSize o = 0 <-> (args "pageSize" = None \/ args "pageSize" = Some ""))
  /\ (Parse.po_pageSize o <> 0 -> exists p, args "pageSize" = Some p /\ t p = Some (Parse.po_pageSize o)).
Proof.
  intros H. unfold Parse.parsePagingArguments in H. cbv zeta in H.
  destruct (args "id") as [si|] eqn:Ei;
    [destruct (String.eqb si "") eqn:Esi;
       [apply String.eqb_eq in Esi; subst si; simpl in H
       |apply String.eqb_neq in Esi; simpl in H;
        destruct (Routes.validate_objectId si) eqn:Ev; [|discriminate]]
    |simpl in H];
  (destruct (args "pageSize") as [sp|] eqn:Ep;
    [destruct (String.eqb sp "") eqn:Esp;
       [apply String.eqb_eq in Esp; subst sp; simpl in H
       |apply String.eqb_neq in Esp; simpl in H;
        destruct (t sp) as [n|] eqn:Et; [|discriminate];
        destruct (n =? 0) eqn:En; [discriminate|]; apply Z.eqb_neq in En]
    |simpl in H]);
  injection H as <-; simpl;
  repeat split; intros; try discriminate; try (intuition congruence); eauto.
Qed.

Lemma parsePagingArguments_ok_witness :
  (Parse.po_id (Parse.mkPagingOptions (Some Fixtures.someObjectIdHex) 25) = None <-> ((fun k => if String.eqb k "pageSize" then Some "25" else Some Fixtures.someObjectIdHex) "id" = None \/ (fun k => if String.eqb k "pageSize" then Some "25" else Some Fixtures.someObjectIdHex) "id" = Some ""))
  /\ (forall i, Parse.po_id (Parse.mkPagingOptions (Some Fixtures.someObjectIdHex) 25) = Some i -> (fun k => if String.eqb k "pageSize" then Some "25" else Some Fixtures.someObjectIdHex) "id" = Some i /\ Routes.validate_objectId i = true)
  /\ (Parse.po_pageSize (Parse.mkPagingOptions (Some Fixtures.someObjectIdHex) 25) = 0 <-> ((fun k => if String.eqb k "pageSize" then Some "25" else Some Fixtures.someObjectIdHex) "pageSize" = None \/ (fun k => if String.eqb k "pageSize" then Some "25" else Some Fixtures.someObjectIdHex) "pageSize" = Some ""))
  /\ (Parse.po_pageSize (Parse.mkPagingOptions (Some Fixtures.someObjectIdHex) 25) <> 0 -> exists p, (fun k => if String.eqb k "pageSize" then Some "25" else Some Fixtures.someObjectIdHex) "pageSize" = Some p
        /\ (fun s => if String.eqb s "25" then Some 25 else None) p = Some (Parse.po_pageSize (Parse.mkPagingOptions (Some Fixtures.someObjectIdHex) 25))).
Proof.
  apply (parsePagingArguments_ok (fun s => if String.eqb s "25" then Some 25 else None) (fun k => if String.eqb k "pageSize" then Some "25" else Some Fixtures.someObjectIdHex) (Parse.mkPagingOptions (Some Fixtures.someObjectIdHex) 25)).
  vm_compute. reflexivity.
Defined.

(** X15: a non-empty [args.pageSize] that [tryParseUint] rejects or reads
    as 0 makes [parsePagingArguments(args)] throw. *)
Theorem parsePagingArguments_rejects_pageSize t args p :
  args "pageSize" = Some p -> p <> ""%string -> (t p = None \/ t p = Some 0) ->
  exists e, Parse.parsePagingArguments t args = Parse.Throw e.
Proof.
  intros Hp Hne Ht. unfold Parse.parsePagingArguments. cbv zeta.
  destruct (args "id") as [si|];
    [destruct (negb (String.eqb si "")); [destruct (Routes.validate_objectId si)|]|];
    simpl; eauto; rewrite Hp; apply String.eqb_neq in Hne; rewrite Hne; simpl;
    destruct Ht as [-> | ->]; simpl; eauto.
Qed.

Lemma parsePagingArguments_rejects_pageSize_witness :
  exists e, Parse.parsePagingArguments (fun _ => Some 0)
              (fun k => if String.eqb k "pageSize" then Some "0" else None) = Parse.Throw e.
Proof.
  apply (parsePagingArguments_rejects_pageSize (fun _ => Some 0)
           (fun k => if String.eqb k "pageSize" then Some "0" else None) "0");
    [reflexivity | discriminate | right; reflexivity].
Defined.

(** *** Page size generation *)

Lemma loop_sound fuel step max p x :
  0 < step -> In x (PageSizes.loop fuel step max p) ->
  p <= x <= max /\ (x - p) mod step = 0.
Proof.
  intros Hs. revert p. induction fuel as [|f IH]; intros p H; simpl in H; [contradiction|].
  destruct (p <=? max) eqn:E; [apply Z.leb_le in E|contradiction].
  destruct H as [<-|H].
  - rewrite Z.sub_diag, Z.mod_0_l by lia. lia.
  - destruct (IH (p + step) H) as [Hr Hm]. split; [lia|].
    replace (x - p) with (x - (p + step) + 1 * step) by lia.
    rewrite Z.mod_add by lia. exact Hm.
Qed.

Lemma loop_complete fuel step max p x :
  0 < step -> (Z.to_nat ((max - p) / step) < fuel)%nat ->
  p <= x <= max -> (x - p) mod step = 0 -> In x (PageSizes.loop fuel step max p).
Proof.
  intros Hs. revert p. induction fuel as [|f IH]; intros p Hf Hx Hm; [lia|].
  simpl. assert (E : (p <=? max) = true) by (apply Z.leb_le; lia). rewrite E.
  destruct (Z.eq_dec x p) as [->|Hne]; [left; reflexivity|right].
  assert (Hq : x - p = step * ((x - p) / step)) by (rewrite (Z.div_mod (x - p) step) at 1 by lia; lia).
  assert (Hq1 : 1 <= (x - p) / step) by nia.
  apply IH.
  - assert (Hd : (max - (p + step)) / step = (max - p) / step - 1).
    { replace (max - (p + step)) with (max - p + (-1) * step) by lia.
      rewrite Z.div_add by lia. lia. }
    assert (Hge : 1 <= (max - p) / step).
    { assert (step <= x - p) by nia. apply Z.div_le_lower_bound; lia. }
    rewrite Hd. lia.
  - nia.
  - replace (x - (p + step)) with (x - p + (-1) * step) by lia.
    rewrite Z.mod_add by lia. exact Hm.
Qed.

Lemma loop_sorted fuel step max p :
  0 < step -> Sorted Z.lt (PageSizes.loop fuel step max p).
Proof.
  intros Hs. revert p. induction fuel as [|f IH]; intros p; simpl; [constructor|].
  destruct (p <=? max); [|constructor].
  constructor; [apply IH|].
  destruct f as [|f]; simpl; [constructor|].
  destruct (p + step <=? max); constructor. lia.
Qed.

(** The loop starts at the first multiple of [step] at or above [min]. *)
Lemma start_multiple c x :
  0 <= PageSizes.ps_min c -> 0 < PageSizes.ps_step c ->
  (PageSizes.ps_min c <= x /\ x mod PageSizes.ps_step c = 0
   <-> PageSizes.start c <= x /\ (x - PageSizes.start c) mod PageSizes.ps_step c = 0).
Proof.
  intros Hm Hs. unfold PageSizes.start.
  rewrite Z.rem_mod_nonneg by lia.
  set (s := PageSizes.ps_step c). set (m := PageSizes.ps_min c).
  assert (Hdm : m = s * (m / s) + m mod s) by (apply Z.div_mod; lia).
  assert (Hr : 0 <= m mod s < s) by (apply Z.mod_pos_bound; lia).
  assert (Hst : exists q, m + (if m mod s =? 0 then 0 else s - m mod s) = s * q
                /\ m <= s * q /\ s * q < m + s).
  { destruct (m mod s =? 0) eqn:E; [apply Z.eqb_eq in E | apply Z.eqb_neq in E].
    - exists (m / s). lia.
    - exists (m / s + 1). lia. }
  destruct Hst as [q [Hq [Hq1 Hq2]]]. rewrite Hq.
  assert (Hsh : (x - s * q) mod s = x mod s).
  { replace (x - s * q) with (x + (- q) * s) by lia. apply Z.mod_add. lia. }
  rewrite Hsh.
  assert (Hx : x = s * (x / s) + x mod s) by (apply Z.div_mod; lia).
  split; intros [H1 H2]; split; try exact H2.
  - rewrite H2, Z.add_0_r in Hx.
    assert (Hlt : s * q < s * (x / s + 1)) by lia.
    apply Z.mul_lt_mono_pos_l in Hlt; [|lia].
    assert (Hle : s * q <= s * (x / s)) by (apply Z.mul_le_mono_nonneg_l; lia).
    lia.
  - lia.
Qed.

(** X16: for a configuration with [0 <= min] and [step > 0],
    [generateValidPageSizes] terminates; when it returns, the list of page
    sizes is not empty, is increasing and holds exactly the multiples of
    [step] in [[min, max]]; it throws exactly when there is no such
    multiple. *)
Theorem generateValidPageSizes_multiples c :
  0 <= PageSizes.ps_min c -> 0 < PageSizes.ps_step c ->
  PageSizes.generateValidPageSizes c <> PageSizes.Diverges
  /\ (forall l, PageSizes.generateValidPageSizes c = PageSizes.Ok l ->
        l <> [] /\ Sorted Z.lt l
        /\ forall x, In x l <-> PageSizes.ps_min c <= x <= PageSizes.ps_max c
                                /\ x mod PageSizes.ps_step c = 0)
  /\ ((exists msg, PageSizes.generateValidPageSizes c = PageSizes.Throws msg)
      <-> forall x, PageSizes.ps_min c <= x <= PageSizes.ps_max c ->
                    x mod PageSizes.ps_step c <> 0).
Proof.
  intros Hm Hs. unfold PageSizes.generateValidPageSizes.
  assert (E0 : (PageSizes.ps_step c =? 0) = false) by (apply Z.eqb_neq; lia).
  assert (E1 : (PageSizes.ps_step c <? 0) = false) by (apply Z.ltb_ge; lia).
  rewrite E0, E1.
  set (fuel := S (Z.to_nat ((PageSizes.ps_max c - PageSizes.start c) / PageSizes.ps_step c))).
  assert (Hin : forall x, In x (PageSizes.loop fuel (PageSizes.ps_step c) (PageSizes.ps_max c) (PageSizes.start c))
                <-> PageSizes.ps_min c <= x <= PageSizes.ps_max c /\ x mod PageSizes.ps_step c = 0).
  { intros x. split.
    - intros H. destruct (loop_sound _ _ _ _ _ Hs H) as [Hr Hmod].
      destruct (proj2 (start_multiple c x Hm Hs) (conj (proj1 Hr) Hmod)). lia.
    - intros [Hr Hmod]. destruct (proj1 (start_multiple c x Hm Hs) (conj (proj1 Hr) Hmod)) as [H1 H2].
      apply loop_complete; [exact Hs | unfold fuel; lia | lia | exact H2]. }
  destruct (PageSizes.loop fuel (PageSizes.ps_step c) (PageSizes.ps_max c) (PageSizes.start c))
    as [|y l] eqn:El.
  - split; [discriminate|]. split; [discriminate|]. split.
    + intros _ x Hx Hmod. apply (proj2 (Hin x)). auto.
    + intros _. exists PageSizes.noPageSizes. reflexivity.
  - split; [discriminate|]. split.
    + intros l' H. injection H as <-. split; [discriminate|]. split; [|exact Hin].
      rewrite <- El. apply loop_sorted. exact Hs.
    + split; [intros [msg H]; discriminate|].
      intros H. destruct (proj1 (Hin y) (or_introl eq_refl)) as [Hy Hmod].
      exfalso. exact (H y Hy Hmod).
Qed.

Lemma generateValidPageSizes_multiples_witness :
  PageSizes.generateValidPageSizes (PageSizes.mkPageSizeConfig 10 100 10) <> PageSizes.Diverges
  /\ (forall l, PageSizes.generateValidPageSizes (PageSizes.mkPageSizeConfig 10 100 10) = PageSizes.Ok l ->
        l <> [] /\ Sorted Z.lt l /\ forall x, In x l <-> 10 <= x <= 100 /\ x mod 10 = 0)
  /\ ((exists msg, PageSizes.generateValidPageSizes (PageSizes.mkPageSizeConfig 10 100 10)
                   = PageSizes.Throws msg)
      <-> forall x, 10 <= x <= 100 -> x mod 10 <> 0).
Proof.
  apply (generateValidPageSizes_multiples (PageSizes.mkPageSizeConfig 10 100 10)); simpl; lia.
Defined.

(** *** Namespace lookup by id *)

(** X17: [rawNamespaceById(collectionName, id)] returns a namespace of the
    collection that is active and carries the id at a level [k < 3] with
    depth [k + 1]; it returns nothing only when no namespace of the
    collection is such. *)
Theorem rawNamespaceById_match coll id st :
  (forall n, fst (Ns.rawNamespaceById coll id st) = Some n ->
     In n (namespaces_of st coll) /\ ns_active n = true
     /\ exists level, (level < 3)%nat
          /\ nth_error (ns_levels n) level = Some (Long.make (fst id) (snd id))
          /\ ns_depth n = Z.of_nat level + 1)
  /\ (fst (Ns.rawNamespaceById coll id st) = None ->
      forall n level, In n (namespaces_of st coll) -> ns_active n = true -> (level < 3)%nat ->
        nth_error (ns_levels n) level = Some (Long.make (fst id) (snd id)) ->
        ns_depth n <> Z.of_nat level + 1).
Proof.
  unfold Ns.rawNamespaceById, Mongo.findOne. cbv zeta. cbn [fst]. split.
  - intros n H. apply find_some in H as [Hin Hc]. split; [exact Hin|].
    apply existsb_exists in Hc as [level [Hl Hc]].
    apply andb_prop in Hc as [Hc Hd]. apply andb_prop in Hc as [Ha Hn].
    split; [exact Ha|]. exists level.
    split; [simpl in Hl; lia|].
    destruct (nth_error (ns_levels n) level) as [l|]; [|discriminate].
    apply Z.eqb_eq in Hn. apply Z.eqb_eq in Hd. subst l. auto.
  - intros H n level Hin Ha Hl Hn Hd.
    pose proof (find_none _ _ H n Hin) as Hf.
    assert (Hx : In level [0; 1; 2]%nat) by (simpl; lia).
    cbv beta in Hf. rewrite (proj2 (existsb_exists _ _)) in Hf; [discriminate|].
    exists level. split; [exact Hx|]. rewrite Ha, Hn, Hd, !Z.eqb_refl. reflexivity.
Qed.

Lemma mapIndexed_const (g : string -> Parse.Result Parse.Value) arr i l vs :
  Parse.mapIndexed (fun x _ _ => g x) arr i l = Parse.Ok vs
  <-> Forall2 (fun x v => g x = Parse.Ok v) l vs.
Proof.
  revert i vs. induction l as [|y r IH]; intros i vs; simpl.
  - split; [intros H; injection H as <-; constructor | intros H; inversion H; reflexivity].
  - destruct (g y) as [v0|e] eqn:Eg; simpl.
    + destruct (Parse.mapIndexed (fun x _ _ => g x) arr (S i) r) as [vs0|e] eqn:Em; simpl.
      * split.
        -- intros H. injection H as <-. constructor; [exact Eg|]. apply (IH (S i)). exact Em.
        -- intros H. inversion H as [|a b l1 l2 Hab Hrest]; subst.
           apply (IH (S i)) in Hrest. rewrite Em in Hrest. injection Hrest as ->.
           rewrite Eg in Hab. injection Hab as ->. reflexivity.
      * split; [discriminate|]. intros H. inversion H as [|a b l1 l2 Hab Hrest]; subst.
        apply (IH (S i)) in Hrest. rewrite Em in Hrest. discriminate.
    + split; [discriminate|]. intros H. inversion H as [|a b l1 l2 Hab Hrest]; subst.
      rewrite Eg in Hab. discriminate.
Qed.

(** X18: with an existing named parser, [parseArgumentAsArray(args, key,
    name)] on an array succeeds exactly when every element parses, and
    then it returns the parsed elements in order. *)
Theorem parseArgumentAsArray_named h t s args key name f arr vs :
  Parse.namedParserMap h t s name = Some f -> args key = Some arr ->
  (Parse.parseArgumentAsArray h t s args key (Parse.ANamed name) = Parse.Ok vs
   <-> Forall2 (fun x v => f x = Parse.Ok v) arr vs).
Proof.
  intros Hf Ha. unfold Parse.parseArgumentAsArray. rewrite Ha, Hf.
  rewrite <- (mapIndexed_const f arr 0 arr vs).
  destruct (Parse.mapIndexed (fun x _ _ => f x) arr 0 arr) as [ws|e].
  - reflexivity.
  - split; discriminate.
Qed.

Lemma parseArgumentAsArray_named_witness :
  Parse.parseArgumentAsArray (fun _ => Parse.Ok []) (fun _ => Some 7%Z) (fun _ => Parse.Ok [])
    (fun _ => Some ["7"; "7"]) "heights" (Parse.ANamed "uint") = Parse.Ok [Parse.VNumber 7; Parse.VNumber 7]
  <-> Forall2 (fun x v =>
         (fun str => match (fun _ : string => Some 7%Z) str with
                     | None => Parse.Throw (Parse.Error "must be non-negative number")
                     | Some n => Parse.Ok (Parse.VNumber n)
                     end) x = Parse.Ok v)
       ["7"; "7"] [Parse.VNumber 7; Parse.VNumber 7].
Proof.
  apply parseArgumentAsArray_named; reflexivity.
Defined.
